(** * cfde_client.main: the command-line client, embedded and verified

    A shallow embedding of [src/cfde_client/main.py]: the four click
    commands [run], [status], [login] and [logout], written over an
    explicit world (the files the commands read and write, the standard
    streams, and the calls made on the external [CfdeClient]) in a small
    state-and-exception monad. *)

From Stdlib Require Import ZArith String Ascii List.
From stdpp Require Import base option gmap strings list fin_maps.

Open Scope string_scope.
Set Warnings "-register-all".

(** ** Python values

    The values the commands handle are those [json.load] produces and
    [json.dump] accepts: [None], booleans, integers, strings, lists and
    dictionaries keyed by strings. (JSON floats are left out: no command
    computes with a number.) *)

Inductive pyval :=
| PNone
| PBool (b : bool)
| PInt (z : Z)
| PStr (s : string)
| PList (l : list pyval)
| PDict (d : gmap string pyval).

(** Python truthiness, as tested by [if x], [not x] and [x or y]. *)
Definition truthy (v : pyval) : bool :=
  match v with
  | PNone => false
  | PBool b => b
  | PInt z => negb (Z.eqb z 0)
  | PStr s => negb (String.eqb s EmptyString)
  | PList l => match l with [] => false | _ => true end
  | PDict d => negb (bool_decide (d = ∅))
  end.

(** [a or b]. *)
Definition py_or (a b : pyval) : pyval := if truthy a then a else b.

(** [v == s] for a string [s]: only an equal string compares equal. *)
Definition py_eq_str (v : pyval) (s : string) : bool :=
  match v with
  | PStr s' => String.eqb s' s
  | _ => false
  end.

(** An option given on the command line without a type: the string
    typed, or [None] (click's [default=None]). *)
Definition of_option (o : option string) : pyval :=
  match o with
  | Some s => PStr s
  | None => PNone
  end.

(** ** Exceptions

    [exc] stands for an instance of Python's [Exception]: its class name
    and its [args] tuple. *)

Record exc := Exc { exc_class : string; exc_args : list pyval }.

Definition FileNotFoundError (path : string) : exc :=
  Exc "FileNotFoundError" [PInt 2; PStr "No such file or directory"; PStr path].
Definition JSONDecodeError : exc :=
  Exc "JSONDecodeError" [PStr "Expecting value: line 1 column 1 (char 0)"].
Definition ValueError (msg : string) : exc := Exc "ValueError" [PStr msg].
Definition TypeError (msg : string) : exc := Exc "TypeError" [PStr msg].
Definition KeyError (k : string) : exc := Exc "KeyError" [PStr k].
Definition AttributeError (msg : string) : exc := Exc "AttributeError" [PStr msg].
Definition EOFError : exc := Exc "EOFError" [PStr "EOF when reading a line"].
Definition UnboundLocalError (name : string) : exc :=
  Exc "UnboundLocalError"
      [PStr ("local variable '" ++ name ++ "' referenced before assignment")].

(** [except (FileNotFoundError, ValueError)]: [json.JSONDecodeError] is a
    subclass of [ValueError]. *)
Definition is_FileNotFoundError (e : exc) : bool :=
  String.eqb (exc_class e) "FileNotFoundError".
Definition is_ValueError (e : exc) : bool :=
  String.eqb (exc_class e) "ValueError" || String.eqb (exc_class e) "JSONDecodeError".

(** ** Strings *)

Definition nl : string := String (ascii_of_nat 10) EmptyString.

(** [template.format(a, b, ...)] for templates whose only fields are [{}]. *)
Fixpoint format (template : string) (args : list string) : string :=
  match template with
  | EmptyString => EmptyString
  | String "{" (String "}" rest) =>
      match args with
      | a :: args' => a ++ format rest args'
      | [] => format rest []
      end
  | String c rest => String c (format rest args)
  end.

Definition is_space (c : ascii) : bool :=
  let n := nat_of_ascii c in
  Nat.eqb n 32 || (Nat.leb 9 n && Nat.leb n 13).

Fixpoint lstrip (s : string) : string :=
  match s with
  | String c r => if is_space c then lstrip r else s
  | EmptyString => EmptyString
  end.

Fixpoint rstrip (s : string) : string :=
  match s with
  | EmptyString => EmptyString
  | String c r =>
      match rstrip r with
      | EmptyString => if is_space c then EmptyString else String c EmptyString
      | r' => String c r'
      end
  end.

(** [s.strip()]. *)
Definition strip (s : string) : string := rstrip (lstrip s).

Definition lower_ascii (c : ascii) : ascii :=
  let n := nat_of_ascii c in
  if Nat.leb 65 n && Nat.leb n 90 then ascii_of_nat (n + 32) else c.

(** [s.lower()]. *)
Fixpoint lower (s : string) : string :=
  match s with
  | EmptyString => EmptyString
  | String c r => String (lower_ascii c) (lower r)
  end.

(** [answer.strip().lower() in ["y", "yes"]]. *)
Definition is_yes (answer : string) : bool :=
  let a := lower (strip answer) in
  String.eqb a "y" || String.eqb a "yes".

(** *** [os.path] (posixpath) *)

Fixpoint has_slash (p : string) : bool :=
  match p with
  | EmptyString => false
  | String c r => Ascii.eqb c "/" || has_slash r
  end.

(** [(p[:i], p[i:])] with [i = p.rfind('/') + 1]. *)
Fixpoint split_last_slash (p : string) : string * string :=
  match p with
  | EmptyString => (EmptyString, EmptyString)
  | String c r =>
      if has_slash r then
        let (h, t) := split_last_slash r in (String c h, t)
      else if Ascii.eqb c "/" then (String c EmptyString, r)
      else (EmptyString, p)
  end.

Fixpoint all_slashes (p : string) : bool :=
  match p with
  | EmptyString => true
  | String c r => Ascii.eqb c "/" && all_slashes r
  end.

Fixpoint rstrip_slashes (p : string) : string :=
  match p with
  | EmptyString => EmptyString
  | String c r =>
      match rstrip_slashes r with
      | EmptyString => if Ascii.eqb c "/" then EmptyString else String c EmptyString
      | r' => String c r'
      end
  end.

(** [os.path.dirname(p)]. *)
Definition dirname (p : string) : string :=
  let head := fst (split_last_slash p) in
  if all_slashes head then head else rstrip_slashes head.

(** [os.path.basename(p)]. *)
Definition basename (p : string) : string := snd (split_last_slash p).

(** ** The world a command runs in *)

(** What a file holds, as far as [json.load] can tell. *)
Inductive file_content :=
| Unparsable            (* text that json.load rejects; the empty file is one *)
| JsonText (v : pyval). (* text that json.load parses to v, as json.dump writes it *)

Inductive in_stream :=
| Console                          (* the process's own standard input *)
| StringIO (pending : list string). (* an in-memory text, by lines *)

Inductive out_stream :=
| Terminal                (* the process's own standard output *)
| DevNull (closed : bool). (* open(os.devnull, 'w') *)

Inductive out_event :=
| Printed (line : string)    (* print(line) *)
| Prompted (prompt : string). (* the prompt of input(prompt) *)

Definition kwargs := list (string * pyval).

(** The calls made on the external client class. A method call names its
    receiver by the keyword arguments it was constructed with. *)
Inductive remote_call :=
| CfdeClient_init (kw : kwargs)
| CfdeClient_method (self : kwargs) (method : string) (args : list pyval) (kw : kwargs).

Record world := World {
  files : gmap string file_content; (* the file system, by path *)
  opened_w : list string;           (* the paths opened for writing, oldest first *)
  sys_stdin : in_stream;            (* what sys.stdin refers to *)
  sys_stdout : out_stream;          (* what sys.stdout refers to *)
  typed : list string;              (* the lines the user is going to type *)
  shown : list out_event;           (* what reached the terminal, oldest first *)
  calls : list remote_call;         (* the calls made on CfdeClient, oldest first *)
}.

Definition set_files (f : gmap string file_content) (w : world) : world :=
  World f (opened_w w) (sys_stdin w) (sys_stdout w) (typed w) (shown w) (calls w).
Definition add_opened_w (p : string) (w : world) : world :=
  World (files w) (opened_w w ++ [p]) (sys_stdin w) (sys_stdout w) (typed w)
        (shown w) (calls w).
Definition set_sys_stdin (i : in_stream) (w : world) : world :=
  World (files w) (opened_w w) i (sys_stdout w) (typed w) (shown w) (calls w).
Definition set_sys_stdout (o : out_stream) (w : world) : world :=
  World (files w) (opened_w w) (sys_stdin w) o (typed w) (shown w) (calls w).
Definition set_typed (t : list string) (w : world) : world :=
  World (files w) (opened_w w) (sys_stdin w) (sys_stdout w) t (shown w) (calls w).
Definition add_shown (e : out_event) (w : world) : world :=
  World (files w) (opened_w w) (sys_stdin w) (sys_stdout w) (typed w)
        (shown w ++ [e]) (calls w).
Definition add_call (c : remote_call) (w : world) : world :=
  World (files w) (opened_w w) (sys_stdin w) (sys_stdout w) (typed w) (shown w)
        (calls w ++ [c]).

(** ** Commands: state passing with exceptions *)

Inductive outcome (A : Type) :=
| Ok (a : A)
| Raised (e : exc).
Arguments Ok {A} a.
Arguments Raised {A} e.

Definition M (A : Type) : Type := world → outcome A * world.

Definition ret {A} (a : A) : M A := λ w, (Ok a, w).

Definition bind {A B} (m : M A) (k : A → M B) : M B := λ w,
  match m w with
  | (Ok a, w') => k a w'
  | (Raised e, w') => (Raised e, w')
  end.

Declare Scope cmd_scope.
Delimit Scope cmd_scope with cmd.
Bind Scope cmd_scope with M.
Notation "x ← m ; k" := (bind m (λ x, k))
  (at level 20, m at level 100, k at level 200, only parsing) : cmd_scope.
Notation "' x ← m ; k" := (bind m (λ x, k))
  (at level 20, x pattern, m at level 100, k at level 200, only parsing) : cmd_scope.
Notation "m ;; k" := (bind m (λ _, k))
  (at level 100, k at level 200, only parsing, right associativity) : cmd_scope.
Open Scope cmd_scope.

Definition raise {A} (e : exc) : M A := λ w, (Raised e, w).

(** [try: body / except Exception as e: handler e]. *)
Definition try_except {A} (body : M A) (handler : exc → M A) : M A := λ w,
  match body w with
  | (Ok a, w') => (Ok a, w')
  | (Raised e, w') => handler e w'
  end.

(** [try: body / except Exception as e: handler e / else: orelse]: the
    [else] suite runs outside the handler's protection. *)
Definition try_except_else {A B} (body : M A) (handler : exc → M B)
    (orelse : A → M B) : M B := λ w,
  match body w with
  | (Ok a, w') => orelse a w'
  | (Raised e, w') => handler e w'
  end.

(** [try: body / finally: final]. *)
Definition try_finally {A} (body : M A) (final : M unit) : M A := λ w,
  let (r, w') := body w in
  match final w' with
  | (Ok _, w'') => (r, w'')
  | (Raised e, w'') => (Raised e, w'')
  end.

(** *** Streams *)

Definition write_stdout (e : out_event) : M unit := λ w,
  match sys_stdout w with
  | Terminal => (Ok (), add_shown e w)
  | DevNull false => (Ok (), w)
  | DevNull true => (Raised (ValueError "I/O operation on closed file."), w)
  end.

Definition print (line : string) : M unit := write_stdout (Printed line).

(** [sys.stdin.readline()] as [input] uses it: the line without its
    newline, [EOFError] at the end of the input. *)
Definition read_line : M string := λ w,
  match sys_stdin w with
  | Console =>
      match typed w with
      | l :: rest => (Ok l, set_typed rest w)
      | [] => (Raised EOFError, w)
      end
  | StringIO (l :: rest) => (Ok l, set_sys_stdin (StringIO rest) w)
  | StringIO [] => (Raised EOFError, w)
  end.

(** [input(prompt)]: the prompt goes to [sys.stdout], the line comes from
    [sys.stdin]. *)
Definition input (prompt : string) : M string :=
  write_stdout (Prompted prompt);; read_line.

Definition get_stdin : M in_stream := λ w, (Ok (sys_stdin w), w).
Definition get_stdout : M out_stream := λ w, (Ok (sys_stdout w), w).
Definition put_stdin (i : in_stream) : M unit := λ w, (Ok (), set_sys_stdin i w).
Definition put_stdout (o : out_stream) : M unit := λ w, (Ok (), set_sys_stdout o w).

(** Leaving [with open(os.devnull, 'w') as new_stdout] closes the file;
    [sys.stdout] is then the only other name of that object. *)
Definition close_devnull : M unit := λ w,
  match sys_stdout w with
  | DevNull _ => (Ok (), set_sys_stdout (DevNull true) w)
  | Terminal => (Ok (), w)
  end.

Definition with_devnull {A} (body : out_stream → M A) : M A :=
  try_finally (body (DevNull false)) close_devnull.

(** *** Files *)

(** [with open(path) as f: json.load(f)]. *)
Definition load_json (path : string) : M pyval := λ w,
  match files w !! path with
  | None => (Raised (FileNotFoundError path), w)
  | Some Unparsable => (Raised JSONDecodeError, w)
  | Some (JsonText v) => (Ok v, w)
  end.

(** [open(path, 'w')] truncates the file (or creates it empty). *)
Definition open_w (path : string) : M unit := λ w,
  (Ok (), add_opened_w path (set_files (<[path := Unparsable]> (files w)) w)).

(** [json.dump(v, out)], complete once the file is closed. *)
Definition json_dump (v : pyval) (path : string) : M unit := λ w,
  (Ok (), set_files (<[path := JsonText v]> (files w)) w).

(** [with open(path, 'w') as out: json.dump(v, out)], statement by
    statement. *)
Definition dump_steps (v : pyval) (path : string) : list (M unit) :=
  [open_w path; json_dump v path].

Fixpoint seq_steps (steps : list (M unit)) : M unit :=
  match steps with
  | [] => ret ()
  | s :: rest => s;; seq_steps rest
  end.

Definition dump_json (v : pyval) (path : string) : M unit :=
  seq_steps (dump_steps v path).

(** *** Dictionaries *)

(** [d.get(k)]. *)
Definition py_get (d : pyval) (k : string) : M pyval :=
  match d with
  | PDict m => ret (default PNone (m !! k))
  | _ => raise (AttributeError "object has no attribute 'get'")
  end.

(** [d[k]]. *)
Definition py_getitem (d : pyval) (k : string) : M pyval :=
  match d with
  | PDict m =>
      match m !! k with
      | Some v => ret v
      | None => raise (KeyError k)
      end
  | _ => raise (TypeError "object is not subscriptable by a string")
  end.

(** [d[k] = v]; the one reference to [d] is rebound to the updated value. *)
Definition py_setitem (d : pyval) (k : string) (v : pyval) : M pyval :=
  match d with
  | PDict m => ret (PDict (<[k := v]> m))
  | _ => raise (TypeError "object does not support item assignment")
  end.

(** Reading a local variable that some paths leave unassigned. *)
Definition local {A} (name : string) (v : option A) : M A :=
  match v with
  | Some a => ret a
  | None => raise (UnboundLocalError name)
  end.

Definition when (b : bool) (m : M unit) : M unit := if b then m else ret ().

(** ** The commands of [main.py] *)

(** The options of [run], as click hands them to the function. *)
Record run_options := RunOptions {
  data_path : string;
  author_email : option string;
  catalog : option string;
  schema : option string;
  acl_file : option string;
  output_dir : option string;
  delete_dir : bool;
  ignore_git : bool;
  dry_run : bool;
  verbose : bool;
  force_login : bool;
  no_browser : bool;
  server : option string;
  force_http : bool;
  bag_kwargs_file : option string;
  client_state_file : option string;
  service_instance : option string;
}.

(** [len(e.args) >= 3 and e.args[2] == "invalid_grant"]. *)
Definition is_invalid_grant (e : exc) : bool :=
  match exc_args e with
  | _ :: _ :: a :: _ => py_eq_str a "invalid_grant"
  | _ => false
  end.

(** [os.path.dirname] and [os.path.basename] accept a string only. *)
Definition os_path (f : string → string) (p : pyval) : M string :=
  match p with
  | PStr s => ret (f s)
  | _ => raise (TypeError "expected str, bytes or os.PathLike object")
  end.

(** What lies outside [main.py]: the renderings Python gives its objects,
    two values of the package, and the external client. *)
Class Externals := {
  py_repr : pyval → string;    (* repr(v) *)
  exc_str : exc → string;      (* str(e) *)
  exc_repr : exc → string;     (* repr(e) *)
  json_dumps : pyval → string; (* json.dumps(v, indent=4, sort_keys=True) *)
  DEFAULT_STATE_FILE : string; (* os.path.expanduser("~/.cfde_client.json") *)
  EP_URL : pyval;              (* CONFIG["EP_URL"] *)
  EP_UUID : pyval;             (* CONFIG["EP_UUID"] *)
  (* how CfdeClient answers a call: it raises, or returns a value *)
  remote : remote_call → exc + pyval;
}.

Section Commands.

Context `{Externals}.

(** [str(v)], which is what [print] and a [{}] field show. *)
Definition py_str (v : pyval) : string :=
  match v with
  | PStr s => s
  | _ => py_repr v
  end.

Definition call (c : remote_call) : M pyval := λ w,
  match remote c with
  | inl e => (Raised e, add_call c w)
  | inr v => (Ok v, add_call c w)
  end.

(** [CfdeClient(k=v, ...)]: the client made is known by its arguments. *)
Definition CfdeClient (kw : kwargs) : M kwargs :=
  call (CfdeClient_init kw);; ret kw.

(** [if not client_state_file: client_state_file = DEFAULT_STATE_FILE]. *)
Definition state_file_path (client_state_file : option string) : string :=
  match client_state_file with
  | Some p => if truthy (PStr p) then p else DEFAULT_STATE_FILE
  | None => DEFAULT_STATE_FILE
  end.

(** *** [run], lines 43-54: get any saved parameters *)
Definition run_load_state (o : run_options) : M pyval :=
  try_except
    (state ← load_json (state_file_path (client_state_file o));
     when (verbose o) (print "Loaded previous state");;
     ret state)
    (λ e,
       if is_FileNotFoundError e then
         when (verbose o) (print "No previous state found");;
         ret (PDict ∅)
       else raise e).

(** Lines 56-67: an optional JSON file, [absent] when no path is given. *)
Definition load_optional (path : option string) (absent : pyval) : M pyval :=
  match path with
  | Some p => if truthy (PStr p) then load_json p else ret absent
  | None => ret absent
  end.

(** *** [run], lines 69-92: determine the author email

    The result is [author_email] and the local [save_email], which is
    [None] on the path that assigns it nothing. *)
Definition run_determine_email (o : run_options) (state : pyval)
    : M (pyval * option bool) :=
  when (verbose o) (print "Determining author email");;
  state_email ← py_get state "author_email";
  match author_email o, state_email with
  | Some email, PNone =>
      (* no test of the chain holds: no suite runs *)
      ret (PStr email, None)
  | Some email, _ =>
      if negb (py_eq_str state_email email) then
        when (verbose o) (print "Saved email mismatch with provided email");;
        answer ← input (format
          "Would you like to save '{}' as your default email (instead of '{}')? y/n: "
          [email; py_str state_email]);
        ret (PStr email, Some (is_yes answer))
      else
        (* no test of the chain holds: no suite runs *)
        ret (PStr email, None)
  | None, PNone =>
      when (verbose o) (print "No saved email found and no email provided");;
      typed_email ← input "Please enter your email address for curation and updates: ";
      let email := strip typed_email in
      answer ← input (format
        "Thank you. Would you like to save '{}' for future submissions? y/n: "
        [email]);
      ret (PStr email, Some (is_yes answer))
  | None, _ =>
      print (format "Using saved email '{}'" [py_str state_email]);;
      ret (state_email, Some false)
  end.

(** *** [run], lines 93-99: save email in state if requested *)
Definition run_keep_email (o : run_options) (state author_email : pyval)
    (save_email : option bool) : M pyval :=
  save ← local "save_email" save_email;
  if save then
    state ← py_setitem state "author_email" author_email;
    when (verbose o) (print (format
      "Email '{}' will be saved if the Flow initialization is successful and this is not a dry run"
      [py_str author_email]));;
    ret state
  else ret state.

(** The keyword arguments of [start_deriva_flow]; [**bag_kwargs] wants
    a mapping that repeats none of the keywords written out. *)
Definition flow_kwargs (o : run_options) (dataset_acls : pyval) : kwargs :=
  [("catalog_id", of_option (catalog o));
   ("schema", of_option (schema o));
   ("dataset_acls", dataset_acls);
   ("output_dir", of_option (output_dir o));
   ("delete_dir", PBool (delete_dir o));
   ("handle_git_repos", PBool (negb (ignore_git o)));
   ("server", of_option (server o));
   ("dry_run", PBool (dry_run o));
   ("verbose", PBool (verbose o));
   ("force_http", PBool (force_http o))].

Definition splat (explicit : kwargs) (bag_kwargs : pyval) : M kwargs :=
  match bag_kwargs with
  | PDict m =>
      if forallb (λ kv : string * pyval, bool_decide (m !! kv.1 = None)) explicit
      then ret (explicit ++ map_to_list m)%list
      else raise (TypeError "got multiple values for keyword argument")
  | _ => raise (TypeError "argument after ** must be a mapping")
  end.

(** *** [run], lines 120-139: a started Flow is recorded and announced *)
Definition run_record_flow (o : run_options) (state start_res : pyval) : M unit :=
  dest_path ← py_getitem start_res "fair_re_dest_path";
  dir_path ← os_path dirname dest_path;
  filename ← os_path basename dest_path;
  let http_link := format "{}{}" [py_str EP_URL; py_str dest_path] in
  let globus_web_link :=
    format "https://app.globus.org/file-manager?origin_id={}&origin_path={}"
           [py_str EP_UUID; dir_path] in
  state ← py_setitem state "service_instance" (of_option (service_instance o));
  flow_id ← py_getitem start_res "flow_id";
  state ← py_setitem state "flow_id" flow_id;
  flow_instance_id ← py_getitem start_res "flow_instance_id";
  state ← py_setitem state "flow_instance_id" flow_instance_id;
  state ← py_setitem state "http_link" (PStr http_link);
  state ← py_setitem state "globus_web_link" (PStr globus_web_link);
  dump_json state (state_file_path (client_state_file o));;
  when (verbose o)
    (print (format "State saved to '{}'" [state_file_path (client_state_file o)]));;
  print (format
    (nl ++ "The BDBag with your data is named '{}', and is available through Globus here:"
        ++ nl ++ "{}" ++ nl)
    [filename; globus_web_link]);;
  print (format
    ("You BDBag is also available via direct HTTP download here:" ++ nl ++ "{}")
    [http_link]).

(** *** [run], lines 102-111: the [try] suite, which calls the client *)
Definition run_call_client (o : run_options)
    (author_email bag_kwargs dataset_acls : pyval) : M pyval :=
  when (verbose o) (print "Initializing Flow");;
  cfde ← CfdeClient [("no_browser", PBool (no_browser o));
                     ("force", PBool (force_login o));
                     ("service_instance", of_option (service_instance o))];
  kw ← splat (flow_kwargs o dataset_acls) bag_kwargs;
  call (CfdeClient_method cfde "start_deriva_flow"
                          [PStr (data_path o); author_email] kw).

(** *** [run], lines 101-139: start the Flow *)
Definition run_start_flow (o : run_options)
    (state author_email bag_kwargs dataset_acls : pyval) : M unit :=
  try_except_else
    (run_call_client o author_email bag_kwargs dataset_acls)
    (λ e, print (format "Error while starting Flow: {}" [exc_repr e]))
    (λ start_res,
       success ← py_getitem start_res "success";
       if negb (truthy success) then
         error ← py_getitem start_res "error";
         print (format "Error during Flow startup: {}" [py_str error])
       else
         message ← py_getitem start_res "message";
         print (py_str message);;
         if negb (dry_run o) then run_record_flow o state start_res
         else ret ()).

(** *** [run] *)
Definition run (o : run_options) : M unit :=
  state ← run_load_state o;
  bag_kwargs ← load_optional (bag_kwargs_file o) (PDict ∅);
  dataset_acls ← load_optional (acl_file o) PNone;
  '(author_email, save_email) ← run_determine_email o state;
  state ← run_keep_email o state author_email save_email;
  run_start_flow o state author_email bag_kwargs dataset_acls.

(** *** [status], lines 149-162: which Flow to ask about

    [None] is the [return] of line 162. Otherwise the two identifiers,
    and the local [service_instance], assigned on line 157 only. *)
Definition status_resolve (flow_id flow_instance_id : pyval)
    (client_state_file : option string)
    : M (option (pyval * pyval * option pyval)) :=
  if negb (truthy flow_id) || negb (truthy flow_instance_id) then
    try_except
      (client_state ← load_json (state_file_path client_state_file);
       flow_id ← (if truthy flow_id then ret flow_id
                  else py_get client_state "flow_id");
       flow_instance_id ← (if truthy flow_instance_id then ret flow_instance_id
                           else py_get client_state "flow_instance_id");
       service_instance ← py_get client_state "service_instance";
       if negb (truthy flow_id) || negb (truthy flow_instance_id) then
         raise (ValueError "flow_id or flow_instance_id not found")
       else ret (Some (flow_id, flow_instance_id, Some service_instance)))
      (λ e,
         if is_FileNotFoundError e || is_ValueError e then
           print "Flow not started and flow-id or flow-instance-id not specified";;
           ret None
         else raise e)
  else ret (Some (flow_id, flow_instance_id, None)).

(** *** [status], lines 163-177: ask, and show the answer *)
Definition status_query (flow_id flow_instance_id : pyval)
    (service_instance : option pyval) (raw : bool) : M unit :=
  try_except_else
    (service_instance ← local "service_instance" service_instance;
     cfde ← CfdeClient [("service_instance", service_instance)];
     call (CfdeClient_method cfde "check_status"
                             [flow_id; flow_instance_id] [("raw", PBool true)]))
    (λ e,
       let err := if raw then exc_repr e else exc_str e in
       print (format "Error checking status for Flow '{}': {}" [py_str flow_id; err]))
    (λ status_res,
       if raw then print (json_dumps status_res)
       else
         clean_status ← py_getitem status_res "clean_status";
         print (py_str clean_status)).

(** *** [status] *)
Definition status (flow_id flow_instance_id : option string) (raw : bool)
    (client_state_file : option string) : M unit :=
  resolved ← status_resolve (of_option flow_id) (of_option flow_instance_id)
                            client_state_file;
  match resolved with
  | None => ret ()
  | Some (flow_id, flow_instance_id, service_instance) =>
      status_query flow_id flow_instance_id service_instance raw
  end.

(** *** [login] *)
Definition login (force_login no_browser : bool) : M unit :=
  print "Starting login check";;
  CfdeClient [("no_browser", PBool no_browser); ("force", PBool force_login)];;
  print "You are authenticated and your tokens have been cached.".

(** *** [logout]

    The assignments that open the [try] suite (lines 202-208) cannot
    raise, so [old_stdin] and [old_stdout] are bound whenever the
    [finally] suite reads them; they are taken before the handlers here. *)
Definition logout : M unit :=
  print "Logging out and revoking tokens";;
  old_stdin ← get_stdin;
  put_stdin (StringIO [EmptyString]);;
  old_stdout ← get_stdout;
  try_finally
    (try_except
       (client ← with_devnull (λ new_stdout,
          put_stdout new_stdout;;
          CfdeClient [("no_browser", PBool true)]);
        call (CfdeClient_method client "logout" [] []);;
        ret ())
       (λ e, if is_invalid_grant e then ret () else raise e))
    (put_stdout old_stdout;; put_stdin old_stdin);;
  print "You are logged out.".

End Commands.

(** ** Vocabulary of the statements *)

(** [preserves f m]: running [m] does not change the observation [f] of
    the world, whether [m] returns or raises. *)
Definition preserves {X A} (f : world → X) (m : M A) : Prop :=
  ∀ w, f (m w).2 = f w.

(** The state of the disk: what the files hold and which were opened for
    writing. *)
Definition disk (w : world) : gmap string file_content * list string :=
  (files w, opened_w w).

(** The world after [if b: print(line)] on the terminal. *)
Definition said (b : bool) (line : string) (w : world) : world :=
  if b then add_shown (Printed line) w else w.

(** An optional JSON file that, when named, is there and parses. *)
Definition loadable (w : world) (path : option string) : Prop :=
  match path with
  | Some p => truthy (PStr p) = true → ∃ v, files w !! p = Some (JsonText v)
  | None => True
  end.

(** The record the state file holds; the empty one when there is no file. *)
Definition holds_state (w : world) (path : string) (S : gmap string pyval) : Prop :=
  files w !! path = Some (JsonText (PDict S)) ∨ (files w !! path = None ∧ S = ∅).

(** What [run --verbose] says of the state file. *)
Definition load_message (w : world) (path : string) : string :=
  match files w !! path with
  | Some _ => "Loaded previous state"
  | None => "No previous state found"
  end.

(** What [status] says when there is no Flow to ask about. *)
Definition no_flow_message : string :=
  "Flow not started and flow-id or flow-instance-id not specified".

(** [explicit or client_state.get(k)], read off the record [d]. *)
Definition fallback (explicit : pyval) (d : gmap string pyval) (k : string) : pyval :=
  if truthy explicit then explicit else default PNone (d !! k).

(** The client [run] makes, and its one call. *)
Definition run_client (o : run_options) : kwargs :=
  [("no_browser", PBool (no_browser o)); ("force", PBool (force_login o));
   ("service_instance", of_option (service_instance o))].
Definition start_call (o : run_options) (author_email : pyval) (kw : kwargs)
    : remote_call :=
  CfdeClient_method (run_client o) "start_deriva_flow"
                    [PStr (data_path o); author_email] kw.

(** The client [status] makes, and its one call. *)
Definition status_client (service_instance : pyval) : kwargs :=
  [("service_instance", service_instance)].
Definition check_status_call (service_instance flow_id flow_instance_id : pyval)
    : remote_call :=
  CfdeClient_method (status_client service_instance) "check_status"
                    [flow_id; flow_instance_id] [("raw", PBool true)].

(** The client [logout] makes, and its one call. *)
Definition probe_client : kwargs := [("no_browser", PBool true)].
Definition logout_call : remote_call := CfdeClient_method probe_client "logout" [] [].

(** The world once [logout] has printed [lines] and made the calls [made]:
    the streams are those it started with. *)
Definition after_logout (w : world) (lines : list string) (made : list remote_call)
    : world :=
  World (files w) (opened_w w) (sys_stdin w) (sys_stdout w) (typed w)
        (shown w ++ map Printed lines) (calls w ++ made).

(** The fields [run] may write into the state record. *)
Definition written_fields : gset string :=
  {[ "author_email"; "service_instance"; "flow_id"; "flow_instance_id";
     "http_link"; "globus_web_link" ]}.

(** The record [run] keeps in memory once the email is settled. *)
Definition kept (d : gmap string pyval) (email : pyval) (save : bool)
    : gmap string pyval :=
  if save then <["author_email" := email]> d else d.

(** The world after [input(prompt)] took a line from the keyboard, [rest]
    being the lines still to come. *)
Definition answered (prompt : string) (rest : list string) (w : world) : world :=
  set_typed rest (add_shown (Prompted prompt) w).

(** The prompts of [run]. *)
Definition email_prompt : string :=
  "Please enter your email address for curation and updates: ".
Definition save_prompt (email : string) : string :=
  format "Thank you. Would you like to save '{}' for future submissions? y/n: " [email].

(** A JSON object, as against any other JSON value. *)
Definition is_dict (v : pyval) : bool :=
  match v with
  | PDict _ => true
  | _ => false
  end.

(** The message of the [AttributeError] that [v.get] raises on a value
    that is no dictionary. *)
Definition no_get : string := "object has no attribute 'get'".

(** The client [login] makes. *)
Definition login_client (force_login no_browser : bool) : kwargs :=
  [("no_browser", PBool no_browser); ("force", PBool force_login)].

Section Messages.

Context `{Externals}.

(** Line 171 of [status]. *)
Definition status_error (flow_id : pyval) (raw : bool) (e : exc) : string :=
  format "Error checking status for Flow '{}': {}"
         [py_str flow_id; if raw then exc_repr e else exc_str e].

(** The record [run] writes for a started Flow: lines 127-131 applied to
    the record [d] in memory. *)
Definition flow_record (o : run_options) (d : gmap string pyval)
    (dest_path : string) (flow_id flow_instance_id : pyval) : gmap string pyval :=
  <["globus_web_link" :=
      PStr (format "https://app.globus.org/file-manager?origin_id={}&origin_path={}"
                   [py_str EP_UUID; dirname dest_path])]>
  (<["http_link" := PStr (format "{}{}" [py_str EP_URL; dest_path])]>
  (<["flow_instance_id" := flow_instance_id]>
  (<["flow_id" := flow_id]>
  (<["service_instance" := of_option (service_instance o)]> d)))).

(** The disk once [run] has saved the record [d']. *)
Definition saved (o : run_options) (d' : gmap string pyval) (w : world)
    : gmap string file_content * list string :=
  (<[state_file_path (client_state_file o) := JsonText (PDict d')]> (files w),
   (opened_w w ++ [state_file_path (client_state_file o)])%list).

(** The client accepted the submission: the [try] suite of [run]
    returned the report [R], whose [success] is true. *)
Definition flow_started (o : run_options) (email bag acls : pyval) (w : world)
    (R : gmap string pyval) : Prop :=
  ∃ w1 s, run_call_client o email bag acls w = (Ok (PDict R), w1)
          ∧ R !! "success" = Some s ∧ truthy s = true.

(** [run] got as far as starting the Flow: it loaded the record [d] and
    its two optional files, settled on [email] with the decision [save],
    and stands in the world [w2]. *)
Definition run_prepared (o : run_options) (w : world) (d : gmap string pyval)
    (email : pyval) (save : bool) (bag acls : pyval) (w2 : world) : Prop :=
  ∃ wa wb wc wd,
    run_load_state o w = (Ok (PDict d), wa)
    ∧ load_optional (bag_kwargs_file o) (PDict ∅) wa = (Ok bag, wb)
    ∧ load_optional (acl_file o) PNone wb = (Ok acls, wc)
    ∧ run_determine_email o (PDict d) wc = (Ok (email, Some save), wd)
    ∧ run_keep_email o (PDict d) email (Some save) wd
        = (Ok (PDict (kept d email save)), w2).

(** The lines [run] prints when the submission fails. *)
Definition start_error_message (e : exc) : string :=
  format "Error while starting Flow: {}" [exc_repr e].
Definition startup_error_message (error : pyval) : string :=
  format "Error during Flow startup: {}" [py_str error].


(** Line 86. *)
Definition saved_email_message (saved : pyval) : string :=
  format "Using saved email '{}'" [py_str saved].

(** Lines 124-126: the two links of a started Flow. *)
Definition http_link (dest_path : string) : string :=
  format "{}{}" [py_str EP_URL; dest_path].
Definition globus_web_link (dest_path : string) : string :=
  format "https://app.globus.org/file-manager?origin_id={}&origin_path={}"
         [py_str EP_UUID; dirname dest_path].

(** Lines 134-139: what [run] prints once the state is saved. *)
Definition announcement (o : run_options) (dest_path : string) : list string :=
  ((if verbose o
    then [format "State saved to '{}'" [state_file_path (client_state_file o)]]
    else [])
   ++ [format
         (nl ++ "The BDBag with your data is named '{}', and is available through Globus here:"
             ++ nl ++ "{}" ++ nl)
         [basename dest_path; globus_web_link dest_path];
       format
         ("You BDBag is also available via direct HTTP download here:" ++ nl ++ "{}")
         [http_link dest_path]])%list.

(** The world once [run] has saved the record [d'] and announced the bag
    at [dest_path]. *)
Definition recorded (o : run_options) (d' : gmap string pyval) (dest_path : string)
    (w : world) : world :=
  World (<[state_file_path (client_state_file o) := JsonText (PDict d')]> (files w))
        (opened_w w ++ [state_file_path (client_state_file o)])
        (sys_stdin w) (sys_stdout w) (typed w)
        (shown w ++ map Printed (announcement o dest_path)) (calls w).

(** Lines 97-99. *)
Definition keep_message (email : pyval) : string :=
  format
    "Email '{}' will be saved if the Flow initialization is successful and this is not a dry run"
    [py_str email].

End Messages.

(** A write made of [steps] is atomic on [path] from the world [w] when a
    crash after any number of its steps leaves at [path] what was there
    before the write, or what is there after it. *)
Definition atomic_on (path : string) (steps : list (M unit)) (w : world) : Prop :=
  ∀ n : nat,
    files (seq_steps (take n steps) w).2 !! path = files w !! path
    ∨ files (seq_steps (take n steps) w).2 !! path
        = files (seq_steps steps w).2 !! path.

(** ** Sample surroundings

    Concrete renderings, client behaviours and worlds, on which the
    statements below are run. *)

Module Sample.

Definition repr (v : pyval) : string :=
  match v with
  | PNone => "None"
  | PBool true => "True"
  | PBool false => "False"
  | PStr s => "'" ++ s ++ "'"
  | _ => "<object>"
  end.

Definition str_exc (e : exc) : string :=
  match exc_args e with
  | [PStr msg] => msg
  | _ => exc_class e
  end.

Definition repr_exc (e : exc) : string := exc_class e ++ "(...)".

Definition dumps (v : pyval) : string := "{...}".

Definition home : string := "/home/user/.cfde_client.json".

(** A started Flow, as [start_deriva_flow] reports it. *)
Definition started : gmap string pyval :=
  list_to_map [("success", PBool true); ("message", PStr "Flow started");
               ("fair_re_dest_path", PStr "/public/bag.zip");
               ("flow_id", PStr "F9"); ("flow_instance_id", PStr "I9")].

(** A refused submission. *)
Definition refused : gmap string pyval :=
  list_to_map [("success", PBool false); ("error", PStr "Bad dataset")].

(** The report of [check_status]. *)
Definition active : gmap string pyval :=
  list_to_map [("clean_status", PStr "Flow is ACTIVE")].

Definition method_is (c : remote_call) (name : string) : bool :=
  match c with
  | CfdeClient_method _ m _ _ => String.eqb m name
  | CfdeClient_init _ => false
  end.

(** A service that answers every call. *)
Definition answers (c : remote_call) : exc + pyval :=
  if method_is c "start_deriva_flow" then inr (PDict started)
  else if method_is c "check_status" then inr (PDict active)
  else inr PNone.

(** A service that refuses the submission. *)
Definition refuses (c : remote_call) : exc + pyval :=
  if method_is c "start_deriva_flow" then inr (PDict refused)
  else inr PNone.

(** A service that cannot be reached once the client is made. *)
Definition unreachable : exc := Exc "ConnectionError" [PStr "unreachable"].
Definition fails (c : remote_call) : exc + pyval :=
  match c with
  | CfdeClient_init _ => inr PNone
  | CfdeClient_method _ _ _ _ => inl unreachable
  end.

(** No cached tokens: making a client ends in the invalid-grant error. *)
Definition invalid_grant : exc :=
  Exc "AuthAPIError" [PInt 400; PStr "Error"; PStr "invalid_grant"].
Definition no_tokens (c : remote_call) : exc + pyval :=
  match c with
  | CfdeClient_init _ => inl invalid_grant
  | CfdeClient_method _ _ _ _ => inr PNone
  end.

Definition externals (r : remote_call → exc + pyval) : Externals :=
  {| py_repr := repr; exc_str := str_exc; exc_repr := repr_exc;
     json_dumps := dumps; DEFAULT_STATE_FILE := home;
     EP_URL := PStr "https://ep.example.org"; EP_UUID := PStr "0e57d793";
     remote := r |}.

(** [run data] with the options [-e], [--dry-run] and [--service-instance]. *)
Definition options (email : option string) (dry : bool)
    (instance : option string) : run_options :=
  RunOptions "data" email None None None None false false dry false false false
             None false None None instance.

(** A terminal session over the files [fs], the user typing [lines]. *)
Definition session (fs : gmap string file_content) (lines : list string) : world :=
  World fs [] Console Terminal lines [] [].

(** The state file of a user who ran the tool before. *)
Definition earlier : gmap string pyval :=
  list_to_map [("author_email", PStr "a@x"); ("service_instance", PStr "dev");
               ("flow_id", PStr "F2"); ("flow_instance_id", PStr "I2");
               ("note", PStr "kept")].

Definition with_state (S : gmap string pyval) : gmap string file_content :=
  {[ home := JsonText (PDict S) ]}.

End Sample.

(** ** What a command leaves alone *)

Section Frame.

Context {X : Type} (f : world → X).

Lemma preserves_ret {A} (a : A) : preserves f (ret a).
Proof. intros w. reflexivity. Qed.

Lemma preserves_raise {A} (e : exc) : preserves f (@raise A e).
Proof. intros w. reflexivity. Qed.

Lemma preserves_bind {A B} (m : M A) (k : A → M B) :
  preserves f m → (∀ a, preserves f (k a)) → preserves f (bind m k).
Proof.
  intros Hm Hk w. unfold bind. specialize (Hm w).
  destruct (m w) as [[a|e] w1]; simpl in *; [|assumption].
  rewrite Hk. assumption.
Qed.

Lemma preserves_try_except {A} (body : M A) (handler : exc → M A) :
  preserves f body → (∀ e, preserves f (handler e)) →
  preserves f (try_except body handler).
Proof.
  intros Hm Hh w. unfold try_except. specialize (Hm w).
  destruct (body w) as [[a|e] w1]; simpl in *; [assumption|].
  rewrite Hh. assumption.
Qed.

Lemma preserves_try_except_else {A B} (body : M A) (handler : exc → M B)
    (orelse : A → M B) :
  preserves f body → (∀ e, preserves f (handler e)) → (∀ a, preserves f (orelse a)) →
  preserves f (try_except_else body handler orelse).
Proof.
  intros Hm Hh Ho w. unfold try_except_else. specialize (Hm w).
  destruct (body w) as [[a|e] w1]; simpl in *.
  - rewrite Ho. assumption.
  - rewrite Hh. assumption.
Qed.

Lemma preserves_try_finally {A} (body : M A) (final : M unit) :
  preserves f body → preserves f final → preserves f (try_finally body final).
Proof.
  intros Hm Hf w. unfold try_finally. specialize (Hm w).
  destruct (body w) as [r w1]. specialize (Hf w1).
  destruct (final w1) as [[[]|e] w2]; simpl in *; congruence.
Qed.

Lemma preserves_when (b : bool) (m : M unit) :
  preserves f m → preserves f (when b m).
Proof. intros Hm. destruct b; [exact Hm | apply preserves_ret]. Qed.

Lemma preserves_local {A} (name : string) (v : option A) :
  preserves f (local name v).
Proof. destruct v; [apply preserves_ret | apply preserves_raise]. Qed.

Lemma preserves_py_get (d : pyval) (k : string) : preserves f (py_get d k).
Proof. destruct d; first [apply preserves_ret | apply preserves_raise]. Qed.

Lemma preserves_py_getitem (d : pyval) (k : string) : preserves f (py_getitem d k).
Proof.
  destruct d; simpl; try apply preserves_raise.
  destruct (d !! k); [apply preserves_ret | apply preserves_raise].
Qed.

Lemma preserves_py_setitem (d : pyval) (k : string) (v : pyval) :
  preserves f (py_setitem d k v).
Proof. destruct d; first [apply preserves_ret | apply preserves_raise]. Qed.

Lemma preserves_os_path (g : string → string) (p : pyval) :
  preserves f (os_path g p).
Proof. destruct p; first [apply preserves_ret | apply preserves_raise]. Qed.

Lemma preserves_load_json (path : string) : preserves f (load_json path).
Proof.
  intros w. unfold load_json.
  destruct (files w !! path) as [[|v]|]; reflexivity.
Qed.

(** Observations that ignore the terminal, the keyboard, the client. *)
Hypothesis f_shown : ∀ e w, f (add_shown e w) = f w.

Lemma preserves_write_stdout (e : out_event) : preserves f (write_stdout e).
Proof.
  intros w. unfold write_stdout.
  destruct (sys_stdout w) as [|[]]; simpl; auto.
Qed.

Lemma preserves_print (line : string) : preserves f (print line).
Proof. apply preserves_write_stdout. Qed.

Hypothesis f_typed : ∀ t w, f (set_typed t w) = f w.
Hypothesis f_stdin : ∀ i w, f (set_sys_stdin i w) = f w.

Lemma preserves_read_line : preserves f read_line.
Proof.
  intros w. unfold read_line.
  destruct (sys_stdin w) as [|[|l rest]]; [destruct (typed w)| |]; simpl; auto.
Qed.

Lemma preserves_input (prompt : string) : preserves f (input prompt).
Proof.
  apply preserves_bind; [apply preserves_write_stdout|].
  intros _. apply preserves_read_line.
Qed.

End Frame.

Section FrameClient.

Context `{Externals} {X : Type} (f : world → X).
Hypothesis f_call : ∀ c w, f (add_call c w) = f w.

Lemma preserves_call (c : remote_call) : preserves f (call c).
Proof. intros w. unfold call. destruct (remote c); simpl; auto. Qed.

Lemma preserves_CfdeClient (kw : kwargs) : preserves f (CfdeClient kw).
Proof.
  apply preserves_bind; [apply preserves_call|].
  intros _. apply preserves_ret.
Qed.

Lemma preserves_splat (explicit : kwargs) (bag_kwargs : pyval) :
  preserves f (splat explicit bag_kwargs).
Proof.
  destruct bag_kwargs; simpl; try apply preserves_raise.
  destruct (forallb _ _); [apply preserves_ret | apply preserves_raise].
Qed.

End FrameClient.

(** Goals [preserves f m] for a concrete observation [f], by the shape
    of [m]. *)
Ltac frame_side := intros; reflexivity.
Ltac frame_step :=
  match goal with
  | |- preserves _ (ret _) => apply preserves_ret
  | |- preserves _ (raise _) => apply preserves_raise
  | |- preserves _ (bind _ _) => apply preserves_bind; [|intros ?]
  | |- preserves _ (try_except _ _) => apply preserves_try_except; [|intros ?]
  | |- preserves _ (try_except_else _ _ _) =>
      apply preserves_try_except_else; [|intros ?|intros ?]
  | |- preserves _ (try_finally _ _) => apply preserves_try_finally
  | |- preserves _ (when _ _) => apply preserves_when
  | |- preserves _ (local _ _) => apply preserves_local
  | |- preserves _ (py_get _ _) => apply preserves_py_get
  | |- preserves _ (py_getitem _ _) => apply preserves_py_getitem
  | |- preserves _ (py_setitem _ _ _) => apply preserves_py_setitem
  | |- preserves _ (os_path _ _) => apply preserves_os_path
  | |- preserves _ (load_json _) => apply preserves_load_json
  | |- preserves _ (print _) => apply preserves_print; frame_side
  | |- preserves _ (input _) => apply preserves_input; frame_side
  | |- preserves _ (call _) => apply preserves_call; frame_side
  | |- preserves _ (CfdeClient _) => apply preserves_CfdeClient; frame_side
  | |- preserves _ (splat _ _) => apply preserves_splat
  | |- preserves _ (match ?x with _ => _ end) => destruct x
  end.
Ltac frame := repeat frame_step.

Section RunFrame.

Context `{Externals}.

Lemma load_optional_preserves {X} (f : world → X) path absent :
  preserves f (load_optional path absent).
Proof. unfold load_optional. frame. Qed.

Lemma run_load_state_disk o : preserves disk (run_load_state o).
Proof. unfold run_load_state. frame. Qed.

Lemma run_load_state_stdout o : preserves sys_stdout (run_load_state o).
Proof. unfold run_load_state. frame. Qed.

Lemma run_determine_email_disk o state :
  preserves disk (run_determine_email o state).
Proof. unfold run_determine_email. frame. Qed.

Lemma run_determine_email_stdout o state :
  preserves sys_stdout (run_determine_email o state).
Proof. unfold run_determine_email. frame. Qed.

Lemma run_keep_email_disk o state email save :
  preserves disk (run_keep_email o state email save).
Proof. unfold run_keep_email. frame. Qed.

Lemma run_keep_email_stdout o state email save :
  preserves sys_stdout (run_keep_email o state email save).
Proof. unfold run_keep_email. frame. Qed.

Lemma run_call_client_disk o email bag acls :
  preserves disk (run_call_client o email bag acls).
Proof. unfold run_call_client. frame. Qed.

Lemma run_call_client_stdout o email bag acls :
  preserves sys_stdout (run_call_client o email bag acls).
Proof. unfold run_call_client. frame. Qed.

(** A dry run goes through [run_start_flow] without touching the disk. *)
Lemma run_start_flow_dry_disk o state email bag acls :
  dry_run o = true →
  preserves disk (run_start_flow o state email bag acls).
Proof.
  intros Hdry. unfold run_start_flow. rewrite Hdry. simpl.
  frame. apply run_call_client_disk.
Qed.

End RunFrame.

(** ** Running a command, step by step *)

Arguments format : simpl never.
Arguments dirname : simpl never.
Arguments basename : simpl never.
Arguments state_file_path : simpl never.

(** Worlds built by nested updates are evaluated inside out. *)
Ltac world_simpl :=
  cbv beta iota delta
    [add_shown add_call add_opened_w set_sys_stdin set_sys_stdout set_typed set_files
     files opened_w sys_stdin sys_stdout typed shown calls];
  simpl.

Lemma bind_ok {A B} (m : M A) (k : A → M B) w a w1 :
  m w = (Ok a, w1) → bind m k w = k a w1.
Proof. intros Hm. unfold bind. rewrite Hm. reflexivity. Qed.

Lemma bind_raised {A B} (m : M A) (k : A → M B) w e w1 :
  m w = (Raised e, w1) → bind m k w = (Raised e, w1).
Proof. intros Hm. unfold bind. rewrite Hm. reflexivity. Qed.

Lemma print_Terminal line w :
  sys_stdout w = Terminal → print line w = (Ok (), add_shown (Printed line) w).
Proof. intros Hs. unfold print, write_stdout. rewrite Hs. reflexivity. Qed.

Lemma when_print b line w :
  sys_stdout w = Terminal → when b (print line) w = (Ok (), said b line w).
Proof. intros Hs. destruct b; [apply print_Terminal, Hs | reflexivity]. Qed.

Lemma said_files b l w : files (said b l w) = files w.
Proof. destruct b; reflexivity. Qed.
Lemma said_stdout b l w : sys_stdout (said b l w) = sys_stdout w.
Proof. destruct b; reflexivity. Qed.
Lemma said_disk b l w : disk (said b l w) = disk w.
Proof. destruct b; reflexivity. Qed.
Lemma said_calls b l w : calls (said b l w) = calls w.
Proof. destruct b; reflexivity. Qed.

Lemma py_get_dict (S : gmap string pyval) k w :
  py_get (PDict S) k w = (Ok (default PNone (S !! k)), w).
Proof. reflexivity. Qed.

Lemma preserves_eq {X A} (f : world → X) (m : M A) w r w' :
  preserves f m → m w = (r, w') → f w' = f w.
Proof. intros Hm Hr. specialize (Hm w). rewrite Hr in Hm. exact Hm. Qed.

Lemma print_disk line w : disk (print line w).2 = disk w.
Proof. apply (preserves_print disk); reflexivity. Qed.

Section RunSteps.

Context `{Externals}.

Lemma run_load_state_found o w v :
  sys_stdout w = Terminal →
  files w !! state_file_path (client_state_file o) = Some (JsonText v) →
  run_load_state o w = (Ok v, said (verbose o) "Loaded previous state" w).
Proof.
  intros Hs Hf. unfold run_load_state, try_except.
  rewrite (bind_ok _ _ w v w) by (unfold load_json; rewrite Hf; reflexivity).
  rewrite (bind_ok _ _ _ _ _ (when_print _ _ _ Hs)). reflexivity.
Qed.

Lemma run_load_state_missing o w :
  sys_stdout w = Terminal →
  files w !! state_file_path (client_state_file o) = None →
  run_load_state o w = (Ok (PDict ∅), said (verbose o) "No previous state found" w).
Proof.
  intros Hs Hf. unfold run_load_state, try_except.
  rewrite (bind_raised _ _ w (FileNotFoundError (state_file_path (client_state_file o))) w)
    by (unfold load_json; rewrite Hf; reflexivity).
  change (is_FileNotFoundError (FileNotFoundError _)) with true. cbv iota.
  rewrite (bind_ok _ _ _ _ _ (when_print _ _ _ Hs)). reflexivity.
Qed.

Lemma run_load_state_malformed o w :
  files w !! state_file_path (client_state_file o) = Some Unparsable →
  run_load_state o w = (Raised JSONDecodeError, w).
Proof.
  intros Hf. unfold run_load_state, try_except.
  rewrite (bind_raised _ _ w JSONDecodeError w)
    by (unfold load_json; rewrite Hf; reflexivity).
  reflexivity.
Qed.

Lemma run_load_state_holds o w S :
  sys_stdout w = Terminal →
  holds_state w (state_file_path (client_state_file o)) S →
  run_load_state o w =
    (Ok (PDict S),
     said (verbose o) (load_message w (state_file_path (client_state_file o))) w).
Proof.
  intros Hs [Hf|[Hf ->]]; unfold load_message; rewrite Hf.
  - apply run_load_state_found; assumption.
  - apply run_load_state_missing; assumption.
Qed.

Lemma load_optional_loadable w path absent :
  loadable w path → ∃ v, load_optional path absent w = (Ok v, w).
Proof.
  unfold loadable, load_optional. destruct path as [p|]; [|eauto].
  destruct (truthy (PStr p)); [|eauto].
  intros [v Hv]; [reflexivity|]. exists v. unfold load_json. rewrite Hv. reflexivity.
Qed.

Lemma loadable_said b l w path : loadable w path → loadable (said b l w) path.
Proof. unfold loadable. rewrite said_files. auto. Qed.

(** [run] up to the point where the email is determined. *)
Lemma run_prefix o w S :
  sys_stdout w = Terminal →
  holds_state w (state_file_path (client_state_file o)) S →
  loadable w (bag_kwargs_file o) → loadable w (acl_file o) →
  ∃ bag acls,
    let w1 := said (verbose o)
                (load_message w (state_file_path (client_state_file o))) w in
    run o w =
      ('(email, save) ← run_determine_email o (PDict S);
       state ← run_keep_email o (PDict S) email save;
       run_start_flow o state email bag acls) w1.
Proof.
  intros Hs HS Hb Ha.
  set (w1 := said _ _ w).
  destruct (load_optional_loadable w1 _ (PDict ∅) (loadable_said _ _ _ _ Hb))
    as [bag Hbag].
  destruct (load_optional_loadable w1 _ PNone (loadable_said _ _ _ _ Ha))
    as [acls Hacls].
  exists bag, acls. simpl. unfold run.
  rewrite (bind_ok _ _ _ _ _ (run_load_state_holds o w S Hs HS)).
  fold w1. rewrite (bind_ok _ _ _ _ _ Hbag), (bind_ok _ _ _ _ _ Hacls).
  reflexivity.
Qed.

Lemma run_determine_email_fourth o S w email :
  sys_stdout w = Terminal →
  author_email o = Some email →
  default PNone (S !! "author_email") = PNone
    ∨ S !! "author_email" = Some (PStr email) →
  run_determine_email o (PDict S) w =
    (Ok (PStr email, None), said (verbose o) "Determining author email" w).
Proof.
  intros Hs He HS. unfold run_determine_email.
  rewrite (bind_ok _ _ _ _ _ (when_print _ _ _ Hs)).
  rewrite (bind_ok _ _ _ _ _ (py_get_dict S "author_email" _)).
  rewrite He. destruct HS as [-> | ->]; [reflexivity|].
  simpl. rewrite String.eqb_refl. reflexivity.
Qed.

Lemma run_record_flow_cases o state start_res w :
  disk (run_record_flow o state start_res w).2 = disk w
  ∨ ∃ d R p f fi,
      state = PDict d ∧ start_res = PDict R
      ∧ R !! "fair_re_dest_path" = Some (PStr p)
      ∧ R !! "flow_id" = Some f ∧ R !! "flow_instance_id" = Some fi
      ∧ disk (run_record_flow o state start_res w).2
          = saved o (flow_record o d p f fi) w.
Proof.
  unfold run_record_flow.
  destruct start_res as [| | | | |R]; try (left; reflexivity).
  cbv beta iota delta [bind ret raise py_getitem py_setitem os_path].
  destruct (R !! "fair_re_dest_path") as [dest|] eqn:Hdest; [|left; reflexivity].
  destruct dest as [| | |p| |]; try (left; reflexivity).
  destruct state as [| | | | |d]; try (left; reflexivity).
  destruct (R !! "flow_id") as [f|] eqn:Hf; [|left; reflexivity].
  destruct (R !! "flow_instance_id") as [fi|] eqn:Hfi; [|left; reflexivity].
  right. exists d, R, p, f, fi.
  repeat (split; [first [reflexivity | assumption]|]).
  unfold flow_record, saved.
  change (py_str (PStr p)) with p.
  match goal with
  | |- disk (let (_, _) := dump_json ?v ?path w in _).2 = _ =>
      assert (Hdisk : disk (dump_json v path w).2
                      = (<[path := JsonText v]> (files w), (opened_w w ++ [path])%list))
        by (unfold disk; simpl; rewrite insert_insert_eq; reflexivity);
      rewrite <- Hdisk;
      destruct (dump_json v path w) as [[[]|e] w1]; [|reflexivity]
  end.
  unfold when, print, write_stdout.
  destruct (verbose o), (sys_stdout w1) as [|[]] eqn:Hs;
    repeat first [reflexivity | rewrite Hs | progress (unfold add_shown; simpl)].
Qed.

Lemma saved_disk o d' w w1 : disk w1 = disk w → saved o d' w1 = saved o d' w.
Proof. unfold disk, saved. intros [= -> ->]. reflexivity. Qed.

Lemma run_start_flow_cases o state email bag acls w :
  disk (run_start_flow o state email bag acls w).2 = disk w
  ∨ (dry_run o = false
     ∧ ∃ d R p f fi,
         flow_started o email bag acls w R
         ∧ state = PDict d
         ∧ R !! "fair_re_dest_path" = Some (PStr p)
         ∧ R !! "flow_id" = Some f ∧ R !! "flow_instance_id" = Some fi
         ∧ disk (run_start_flow o state email bag acls w).2
             = saved o (flow_record o d p f fi) w).
Proof.
  unfold run_start_flow, try_except_else.
  destruct (run_call_client o email bag acls w) as [[res|e] w1] eqn:Hc.
  2:{ left. rewrite <- (preserves_eq disk _ _ _ _ (run_call_client_disk o email bag acls) Hc).
      apply print_disk. }
  pose proof (preserves_eq disk _ _ _ _ (run_call_client_disk o email bag acls) Hc)
    as Hd.
  destruct res as [| | | | |R];
    try (left; rewrite <- Hd; reflexivity).
  cbv beta iota delta [bind ret raise py_getitem].
  destruct (R !! "success") as [s|] eqn:Hsucc; [|left; rewrite <- Hd; reflexivity].
  destruct (truthy s) eqn:Hs; simpl.
  2:{ left. rewrite <- Hd.
      destruct (R !! "error"); [|reflexivity].
      apply print_disk. }
  destruct (R !! "message") as [msg|]; [|left; rewrite <- Hd; reflexivity].
  pose proof (print_disk (py_str msg) w1) as Hd2.
  destruct (print (py_str msg) w1) as [[[]|e] w2] eqn:Hp; simpl in Hd2;
    [|left; simpl; congruence].
  destruct (dry_run o); simpl; [left; congruence|].
  destruct (run_record_flow_cases o state (PDict R) w2)
    as [Hsame | (d & R' & p & f & fi & -> & [= <-] & Hdest & Hf & Hfi & Hdisk)].
  - left. congruence.
  - right. split; [reflexivity|]. exists d, R, p, f, fi.
    split; [exists w1, s; auto|].
    repeat (split; [first [reflexivity | assumption]|]).
    rewrite Hdisk. apply saved_disk. congruence.
Qed.



Lemma run_keep_email_inv o state email save w d' w' :
  run_keep_email o state email (Some save) w = (Ok (PDict d'), w') →
  ∃ d, state = PDict d ∧ d' = kept d email save.
Proof.
  unfold run_keep_email, kept.
  cbv beta iota delta [bind ret raise local py_setitem].
  destruct save.
  - destruct state as [| | | | |d]; try discriminate.
    destruct (when _ _ w) as [[[]|e] w1]; [|discriminate].
    intros [= <- _]. exists d. split; reflexivity.
  - intros [= -> _]. exists d'. split; reflexivity.
Qed.

Lemma run_cases o w :
  disk (run o w).2 = disk w
  ∨ (dry_run o = false
     ∧ ∃ d email save bag acls w2 R p f fi,
         run_prepared o w d email save bag acls w2
         ∧ flow_started o email bag acls w2 R
         ∧ R !! "fair_re_dest_path" = Some (PStr p)
         ∧ R !! "flow_id" = Some f ∧ R !! "flow_instance_id" = Some fi
         ∧ disk (run o w).2 = saved o (flow_record o (kept d email save) p f fi) w).
Proof.
  unfold run, bind.
  destruct (run_load_state o w) as [[state|e] wa] eqn:E1.
  2:{ left. exact (preserves_eq disk _ _ _ _ (run_load_state_disk o) E1). }
  pose proof (preserves_eq disk _ _ _ _ (run_load_state_disk o) E1) as D1.
  destruct (load_optional (bag_kwargs_file o) (PDict ∅) wa) as [[bag|e] wb] eqn:E2;
    pose proof (preserves_eq disk _ _ _ _ (load_optional_preserves disk _ _) E2) as D2.
  2:{ left. simpl. congruence. }
  destruct (load_optional (acl_file o) PNone wb) as [[acls|e] wc] eqn:E3;
    pose proof (preserves_eq disk _ _ _ _ (load_optional_preserves disk _ _) E3) as D3.
  2:{ left. simpl. congruence. }
  destruct (run_determine_email o state wc) as [[[email save]|e] wd] eqn:E4;
    pose proof (preserves_eq disk _ _ _ _ (run_determine_email_disk o state) E4) as D4.
  2:{ left. simpl. congruence. }
  destruct (run_keep_email o state email save wd) as [[state'|e] w2] eqn:E5;
    pose proof (preserves_eq disk _ _ _ _ (run_keep_email_disk o state email save) E5)
      as D5.
  2:{ left. simpl. congruence. }
  assert (D : disk w2 = disk w) by congruence.
  destruct (run_start_flow_cases o state' email bag acls w2)
    as [Hsame | (Hdry & d' & R & p & f & fi & Hstart & -> & Hdest & Hf & Hfi & Hdisk)].
  { left. congruence. }
  destruct save as [save|]; [|discriminate E5].
  destruct (run_keep_email_inv _ _ _ _ _ _ _ E5) as (d & -> & ->).
  right. split; [exact Hdry|].
  exists d, email, save, bag, acls, w2, R, p, f, fi.
  split; [exists wa, wb, wc, wd; auto|].
  repeat (split; [assumption|]).
  rewrite Hdisk. apply saved_disk, D.
Qed.

(** A dry run leaves the disk alone. *)
Lemma run_dry_disk o : dry_run o = true → preserves disk (run o).
Proof.
  intros Hdry. unfold run.
  apply preserves_bind; [apply run_load_state_disk|intros state].
  apply preserves_bind; [apply load_optional_preserves|intros bag].
  apply preserves_bind; [apply load_optional_preserves|intros acls].
  apply preserves_bind; [apply run_determine_email_disk|intros [email save]].
  apply preserves_bind; [apply run_keep_email_disk|intros state'].
  apply run_start_flow_dry_disk, Hdry.
Qed.

End RunSteps.

Section StatusSteps.

Context `{Externals}.

Lemma status_resolve_explicit fid iid csf w :
  truthy fid = true → truthy iid = true →
  status_resolve fid iid csf w = (Ok (Some (fid, iid, None)), w).
Proof. intros Hf Hi. unfold status_resolve. rewrite Hf, Hi. reflexivity. Qed.

Lemma status_resolve_missing fid iid csf w :
  sys_stdout w = Terminal →
  truthy fid && truthy iid = false →
  files w !! state_file_path csf = None →
  status_resolve fid iid csf w = (Ok None, add_shown (Printed no_flow_message) w).
Proof.
  intros Hs Hx Hfile. unfold status_resolve.
  rewrite <- negb_andb, Hx. simpl. unfold try_except.
  rewrite (bind_raised _ _ w (FileNotFoundError (state_file_path csf)) w)
    by (unfold load_json; rewrite Hfile; reflexivity).
  change (is_FileNotFoundError (FileNotFoundError _)) with true. simpl.
  rewrite (bind_ok _ _ _ _ _ (print_Terminal _ _ Hs)). reflexivity.
Qed.

Lemma status_resolve_malformed fid iid csf w :
  sys_stdout w = Terminal →
  truthy fid && truthy iid = false →
  files w !! state_file_path csf = Some Unparsable →
  status_resolve fid iid csf w = (Ok None, add_shown (Printed no_flow_message) w).
Proof.
  intros Hs Hx Hfile. unfold status_resolve.
  rewrite <- negb_andb, Hx. simpl. unfold try_except.
  rewrite (bind_raised _ _ w JSONDecodeError w)
    by (unfold load_json; rewrite Hfile; reflexivity).
  simpl.
  rewrite (bind_ok _ _ _ _ _ (print_Terminal _ _ Hs)). reflexivity.
Qed.

Lemma status_resolve_record fid iid csf w d :
  sys_stdout w = Terminal →
  truthy fid && truthy iid = false →
  files w !! state_file_path csf = Some (JsonText (PDict d)) →
  status_resolve fid iid csf w =
    if truthy (fallback fid d "flow_id") && truthy (fallback iid d "flow_instance_id")
    then (Ok (Some (fallback fid d "flow_id", fallback iid d "flow_instance_id",
                    Some (default PNone (d !! "service_instance")))), w)
    else (Ok None, add_shown (Printed no_flow_message) w).
Proof.
  intros Hs Hx Hfile. unfold status_resolve.
  rewrite <- negb_andb, Hx. simpl. unfold try_except.
  rewrite (bind_ok _ _ w (PDict d) w)
    by (unfold load_json; rewrite Hfile; reflexivity).
  assert (Hfid : (if truthy fid then ret fid else py_get (PDict d) "flow_id") w
                 = (Ok (fallback fid d "flow_id"), w)).
  { unfold fallback. destruct (truthy fid); reflexivity. }
  assert (Hiid : (if truthy iid then ret iid else py_get (PDict d) "flow_instance_id") w
                 = (Ok (fallback iid d "flow_instance_id"), w)).
  { unfold fallback. destruct (truthy iid); reflexivity. }
  rewrite (bind_ok _ _ _ _ _ Hfid), (bind_ok _ _ _ _ _ Hiid).
  rewrite (bind_ok _ _ _ _ _ (py_get_dict d "service_instance" _)).
  rewrite <- negb_andb.
  destruct (truthy (fallback fid d "flow_id") && truthy (fallback iid d "flow_instance_id"));
    simpl; [reflexivity|].
  rewrite (bind_ok _ _ _ _ _ (print_Terminal _ _ Hs)). reflexivity.
Qed.

Lemma status_query_unbound fid iid raw w :
  sys_stdout w = Terminal →
  status_query fid iid None raw w =
    (Ok (), add_shown
       (Printed (status_error fid raw (UnboundLocalError "service_instance"))) w).
Proof.
  intros Hs. unfold status_query, try_except_else.
  rewrite (bind_raised _ _ w (UnboundLocalError "service_instance") w) by reflexivity.
  apply print_Terminal, Hs.
Qed.

Lemma status_query_answer fid iid si raw w v res :
  sys_stdout w = Terminal →
  remote (CfdeClient_init (status_client si)) = inr v →
  remote (check_status_call si fid iid) = inr res →
  status_query fid iid (Some si) raw w =
    (if raw then print (json_dumps res)
     else clean_status ← py_getitem res "clean_status"; print (py_str clean_status))
      (add_call (check_status_call si fid iid)
         (add_call (CfdeClient_init (status_client si)) w)).
Proof.
  intros Hs Hinit Hcheck. unfold status_query, try_except_else.
  rewrite (bind_ok _ _ w si w) by reflexivity.
  unfold CfdeClient.
  rewrite (bind_ok (bind (call _) _) _ w (status_client si)
             (add_call (CfdeClient_init (status_client si)) w)).
  2:{ unfold bind, call. fold (status_client si). rewrite Hinit. reflexivity. }
  unfold call at 1. fold (check_status_call si fid iid). rewrite Hcheck.
  reflexivity.
Qed.

End StatusSteps.

Section LogoutSteps.

Context `{Externals}.

Lemma logout_restores_streams w :
  sys_stdin (logout w).2 = sys_stdin w ∧ sys_stdout (logout w).2 = sys_stdout w.
Proof.
  destruct w as [fs ow si so ty sh cs].
  unfold logout, bind, try_finally, try_except, with_devnull, try_finally,
    CfdeClient, bind, call, print, write_stdout; simpl.
  destruct so as [|[|]]; simpl; [| |auto];
    repeat match goal with
      | |- context [match remote ?c with _ => _ end] => destruct (remote c); simpl
      | |- context [if is_invalid_grant ?e then _ else _] =>
          destruct (is_invalid_grant e); simpl
      end; auto.
Qed.

Lemma logout_invalid_grant w e :
  sys_stdout w = Terminal →
  remote (CfdeClient_init probe_client) = inl e →
  is_invalid_grant e = true →
  logout w =
    (Ok (), after_logout w ["Logging out and revoking tokens"; "You are logged out."]
                         [CfdeClient_init probe_client]).
Proof.
  destruct w as [fs ow si so ty sh cs]. simpl. intros -> Hinit Hgrant.
  unfold logout, bind, try_finally, try_except, with_devnull, try_finally,
    CfdeClient, bind, call, print, write_stdout; simpl.
  fold probe_client. rewrite Hinit. simpl. rewrite Hgrant. simpl.
  unfold after_logout. world_simpl. rewrite <- app_assoc. reflexivity.
Qed.

Lemma logout_other_exception w e :
  sys_stdout w = Terminal →
  remote (CfdeClient_init probe_client) = inl e →
  is_invalid_grant e = false →
  logout w =
    (Raised e, after_logout w ["Logging out and revoking tokens"]
                            [CfdeClient_init probe_client]).
Proof.
  destruct w as [fs ow si so ty sh cs]. simpl. intros -> Hinit Hgrant.
  unfold logout, bind, try_finally, try_except, with_devnull, try_finally,
    CfdeClient, bind, call, print, write_stdout; simpl.
  fold probe_client. rewrite Hinit. simpl. rewrite Hgrant. simpl.
  reflexivity.
Qed.

Lemma logout_revokes w v v' :
  sys_stdout w = Terminal →
  remote (CfdeClient_init probe_client) = inr v →
  remote logout_call = inr v' →
  logout w =
    (Ok (), after_logout w ["Logging out and revoking tokens"; "You are logged out."]
                         [CfdeClient_init probe_client; logout_call]).
Proof.
  destruct w as [fs ow si so ty sh cs]. simpl. intros -> Hinit Hout.
  unfold logout, bind, try_finally, try_except, with_devnull, try_finally,
    CfdeClient, bind, call, print, write_stdout; simpl.
  fold probe_client. rewrite Hinit. simpl. fold logout_call. rewrite Hout. simpl.
  unfold after_logout. world_simpl. rewrite <- !app_assoc. reflexivity.
Qed.

End LogoutSteps.

(** X5. [save_email] is left unassigned in the fourth case only: when
    the email is determined and no decision to save comes with it, an
    email was given on the command line, and the state has no email or
    has that very email. *)
Lemma run_determine_email_unbound_only `{Externals} o state w email w' :
  run_determine_email o state w = (Ok (email, None), w') →
  ∃ a S, author_email o = Some a ∧ email = PStr a ∧ state = PDict S
         ∧ (default PNone (S !! "author_email") = PNone
            ∨ default PNone (S !! "author_email") = PStr a).
Proof.
  unfold run_determine_email.
  cbv beta iota delta [bind ret raise py_get].
  destruct (when _ _ w) as [[[]|e] w1]; [|discriminate].
  destruct state as [| | | | |S]; try discriminate.
  destruct (author_email o) as [a|], (default PNone (S !! "author_email")) eqn:Hsaved;
    try (destruct (print _ w1) as [[[]|?] ?]; discriminate);
    try (destruct (when _ _ w1) as [[[]|?] ?]; [|discriminate];
         destruct (input _ _) as [[?|?] ?]; [|discriminate];
         try (destruct (input _ _) as [[?|?] ?]; [|discriminate]);
         discriminate).
  all: try (intros [= <- _]; exists a, S; auto).
  all: simpl;
    try (destruct (when _ _ w1) as [[[]|?] ?]; [|discriminate];
         destruct (input _ _) as [[?|?] ?]; discriminate).
  match goal with |- context [String.eqb ?s a] => destruct (String.eqb s a) eqn:Heq end;
    simpl.
  - apply String.eqb_eq in Heq as ->. intros [= <- _]. exists a, S. auto.
  - destruct (when _ _ w1) as [[[]|?] ?]; [|discriminate].
    destruct (input _ _) as [[?|?] ?]; discriminate.
Qed.

(** ** The record [run] writes *)

Lemma flow_record_author_email `{Externals} o d email save p f fi :
  flow_record o (kept d email save) p f fi !! "author_email"
    = if save then Some email else d !! "author_email".
Proof.
  unfold flow_record, kept.
  rewrite !lookup_insert_ne by discriminate.
  destruct save; [apply lookup_insert_eq | reflexivity].
Qed.

Lemma flow_record_service_instance `{Externals} o d p f fi :
  flow_record o d p f fi !! "service_instance" = Some (of_option (service_instance o)).
Proof.
  unfold flow_record.
  rewrite !lookup_insert_ne by discriminate. apply lookup_insert_eq.
Qed.

Lemma flow_record_ids `{Externals} o d p f fi :
  flow_record o d p f fi !! "flow_id" = Some f
  ∧ flow_record o d p f fi !! "flow_instance_id" = Some fi.
Proof.
  unfold flow_record. split.
  - rewrite !lookup_insert_ne by discriminate. apply lookup_insert_eq.
  - rewrite !lookup_insert_ne by discriminate. apply lookup_insert_eq.
Qed.



(** The state file after a save. *)
Lemma saved_files `{Externals} o d' w w' :
  disk w' = saved o d' w →
  files w' !! state_file_path (client_state_file o) = Some (JsonText (PDict d')).
Proof.
  unfold disk, saved. intros [= -> _]. apply lookup_insert_eq.
Qed.

(** ** The submission, step by step *)

Lemma print_calls line w : calls (print line w).2 = calls w.
Proof. apply (preserves_print calls); reflexivity. Qed.

Section FlowSteps.
Context `{Externals}.

Lemma status_query_first_call f i si raw w :
∃ rest, calls (status_query f i (Some si) raw w).2
        = (calls w ++ CfdeClient_init (status_client si) :: rest)%list.
Proof.
unfold status_query, try_except_else, CfdeClient.
cbv beta iota delta [bind ret raise local call].
fold (status_client si).
destruct (remote (CfdeClient_init (status_client si))) as [e|v]; cbv beta iota.
{ exists []. exact (print_calls _ _). }
unfold check_status_call.
destruct (remote (CfdeClient_method _ _ _ _)) as [e|res]; cbv beta iota.
{ exists [check_status_call si f i].
  etransitivity; [apply print_calls|]. simpl.
  rewrite <- app_assoc. reflexivity. }
exists [check_status_call si f i].
assert (Hc : ∀ w', calls
          ((if raw then print (json_dumps res)
            else bind (py_getitem res "clean_status")
                   (λ clean_status, print (py_str clean_status))) w').2 = calls w').
{ intros w'. destruct raw; [apply print_calls|].
  apply (preserves_bind calls); [apply preserves_py_getitem|].
  intros a w''. apply print_calls. }
etransitivity; [apply Hc|]. simpl.
rewrite <- app_assoc. reflexivity.
Qed.

Lemma run_prepared_run o w d email save bag acls w2 :
run_prepared o w d email save bag acls w2 →
run o w = run_start_flow o (PDict (kept d email save)) email bag acls w2.
Proof.
intros (wa & wb & wc & wd & E1 & E2 & E3 & E4 & E5). unfold run.
rewrite (bind_ok _ _ _ _ _ E1), (bind_ok _ _ _ _ _ E2), (bind_ok _ _ _ _ _ E3),
  (bind_ok _ _ _ _ _ E4).
rewrite (bind_ok _ _ _ _ _ E5). reflexivity.
Qed.

Lemma run_prepared_disk o w d email save bag acls w2 :
run_prepared o w d email save bag acls w2 → disk w2 = disk w.
Proof.
intros (wa & wb & wc & wd & E1 & E2 & E3 & E4 & E5).
rewrite (preserves_eq disk _ _ _ _ (run_keep_email_disk _ _ _ _) E5).
rewrite (preserves_eq disk _ _ _ _ (run_determine_email_disk _ _) E4).
rewrite (preserves_eq disk _ _ _ _ (load_optional_preserves disk _ _) E3).
rewrite (preserves_eq disk _ _ _ _ (load_optional_preserves disk _ _) E2).
exact (preserves_eq disk _ _ _ _ (run_load_state_disk _) E1).
Qed.

Lemma run_start_flow_raised o state email bag acls w e w1 :
sys_stdout w = Terminal →
run_call_client o email bag acls w = (Raised e, w1) →
run_start_flow o state email bag acls w
  = (Ok (), add_shown (Printed (start_error_message e)) w1)
∧ disk w1 = disk w.
Proof.
intros Hs Hc. split.
- unfold run_start_flow, try_except_else. rewrite Hc.
  apply print_Terminal.
  rewrite (preserves_eq sys_stdout _ _ _ _ (run_call_client_stdout _ _ _ _) Hc).
  exact Hs.
- exact (preserves_eq disk _ _ _ _ (run_call_client_disk _ _ _ _) Hc).
Qed.

Lemma run_start_flow_refused o state email bag acls w R w1 s error :
sys_stdout w = Terminal →
run_call_client o email bag acls w = (Ok (PDict R), w1) →
R !! "success" = Some s → truthy s = false → R !! "error" = Some error →
run_start_flow o state email bag acls w
  = (Ok (), add_shown (Printed (startup_error_message error)) w1)
∧ disk w1 = disk w.
Proof.
intros Hs Hc Hsucc Hfalse Herr. split.
- unfold run_start_flow, try_except_else. rewrite Hc.
  cbv beta iota delta [bind ret raise py_getitem].
  rewrite Hsucc, Hfalse, Herr. simpl.
  apply print_Terminal.
  rewrite (preserves_eq sys_stdout _ _ _ _ (run_call_client_stdout _ _ _ _) Hc).
  exact Hs.
- exact (preserves_eq disk _ _ _ _ (run_call_client_disk _ _ _ _) Hc).
Qed.

Lemma run_call_client_init_raises o email bag acls w e :
sys_stdout w = Terminal →
remote (CfdeClient_init (run_client o)) = inl e →
(run_call_client o email bag acls w).1 = Raised e.
Proof.
intros Hs Hinit. unfold run_call_client.
rewrite (bind_ok _ _ _ _ _ (when_print _ _ _ Hs)).
unfold CfdeClient. fold (run_client o).
cbv beta iota delta [bind call]. rewrite Hinit. reflexivity.
Qed.

Lemma run_call_client_start_raises o email acls w v m e :
sys_stdout w = Terminal →
remote (CfdeClient_init (run_client o)) = inr v →
forallb (λ kv : string * pyval, bool_decide (m !! kv.1 = None))
        (flow_kwargs o acls) = true →
remote (start_call o email ((flow_kwargs o acls ++ map_to_list m)%list)) = inl e →
(run_call_client o email (PDict m) acls w).1 = Raised e.
Proof.
intros Hs Hinit Hfresh Hstart. unfold run_call_client.
rewrite (bind_ok _ _ _ _ _ (when_print _ _ _ Hs)).
unfold CfdeClient, splat. fold (run_client o). rewrite Hfresh.
cbv beta iota delta [bind call ret]. rewrite Hinit.
fold (start_call o email ((flow_kwargs o acls ++ map_to_list m)%list)).
rewrite Hstart. reflexivity.
Qed.

End FlowSteps.

Section SaveSteps.
Context `{Externals}.

Lemma run_record_flow_saves o d R p f fi w :
R !! "fair_re_dest_path" = Some (PStr p) →
R !! "flow_id" = Some f → R !! "flow_instance_id" = Some fi →
disk (run_record_flow o (PDict d) (PDict R) w).2
  = saved o (flow_record o d p f fi) w.
Proof.
intros Hdest Hf Hfi.
destruct (run_record_flow_cases o (PDict d) (PDict R) w)
  as [Hsame | (d1 & R1 & p1 & f1 & fi1 & [= <-] & [= <-] & Hdest1 & Hf1 & Hfi1 & Hdisk)].
- exfalso. revert Hsame. unfold run_record_flow.
  cbv beta iota delta [bind ret raise py_getitem py_setitem os_path].
  rewrite Hdest, Hf, Hfi.
  match goal with
  | |- disk (let (_, _) := dump_json ?v ?path w in _).2 = _ → _ =>
      assert (Hdisk : disk (dump_json v path w).2
                      = (<[path := JsonText v]> (files w), (opened_w w ++ [path])%list))
        by (unfold disk; simpl; rewrite insert_insert_eq; reflexivity);
      destruct (dump_json v path w) as [[[]|e] w1] eqn:Hdump
  end.
  + unfold when, print, write_stdout.
    intros Hsame.
    assert (Hw1 : disk w1 = disk w).
    { rewrite <- Hsame.
      destruct (verbose o), (sys_stdout w1) as [|[]] eqn:Hs;
        repeat first [reflexivity | rewrite Hs | progress (unfold add_shown; simpl)]. }
    simpl in Hdisk. rewrite Hw1 in Hdisk. apply (f_equal snd) in Hdisk.
    simpl in Hdisk. apply (f_equal length) in Hdisk.
    rewrite length_app in Hdisk. simpl in Hdisk. lia.
  + discriminate Hdump.
- congruence.
Qed.

End SaveSteps.

(** ** The statements of the specification *)

(** C9. [run] loads its state file at lines 46-54: a file that parses
    gives the record parsed from it, a missing file gives the empty record
    and is no error, and a file that does not parse raises the JSON error
    out of [run], nothing being caught on the way. *)
Theorem run_load_state_cases `{Externals} (o : run_options) (w : world) :
  sys_stdout w = Terminal →
  let path := state_file_path (client_state_file o) in
  (∀ v, files w !! path = Some (JsonText v) → (run_load_state o w).1 = Ok v)
  ∧ (files w !! path = None → (run_load_state o w).1 = Ok (PDict ∅))
  ∧ (files w !! path = Some Unparsable →
       run_load_state o w = (Raised JSONDecodeError, w)
       ∧ run o w = (Raised JSONDecodeError, w)).
Proof.
  intros Hs path. split; [|split].
  - intros v Hf. rewrite (run_load_state_found o w v Hs Hf). reflexivity.
  - intros Hf. rewrite (run_load_state_missing o w Hs Hf). reflexivity.
  - intros Hf. split; [apply run_load_state_malformed, Hf|].
    unfold run. apply bind_raised, run_load_state_malformed, Hf.
Qed.

Lemma run_load_state_cases_witness :
  let H := Sample.externals Sample.answers in
  let o := Sample.options None false None in
  let w := Sample.session {[ Sample.home := Unparsable ]} [] in
  run o w = (Raised JSONDecodeError, w).
Proof.
  intros H o w.
  apply (run_load_state_cases (H := H) o w); reflexivity.
Defined.

(** C1 fails on the code. Given an email on the command line while the
    state file has none, or has that very email, no suite of the chain at
    lines 76-92 runs, [save_email] is left without a value, and the test
    of line 94 raises [UnboundLocalError]: [run] ends there, before any
    call to the client and without touching the disk. *)
Theorem run_provided_email_unbound `{Externals} (o : run_options) (w : world)
    (email : string) (S : gmap string pyval) :
  sys_stdout w = Terminal →
  author_email o = Some email →
  holds_state w (state_file_path (client_state_file o)) S →
  loadable w (bag_kwargs_file o) → loadable w (acl_file o) →
  default PNone (S !! "author_email") = PNone
    ∨ S !! "author_email" = Some (PStr email) →
  (run o w).1 = Raised (UnboundLocalError "save_email")
  ∧ disk (run o w).2 = disk w
  ∧ calls (run o w).2 = calls w.
Proof.
  intros Hs He HS Hb Ha Hemail.
  destruct (run_prefix o w S Hs HS Hb Ha) as (bag & acls & Hrun).
  simpl in Hrun. rewrite Hrun.
  rewrite (bind_ok _ _ _ _ _
    (run_determine_email_fourth o S _ email
       ltac:(rewrite said_stdout; exact Hs) He Hemail)).
  simpl.
  rewrite !said_disk, !said_calls. auto.
Qed.

Lemma run_provided_email_unbound_witness :
  let H := Sample.externals Sample.answers in
  let o := Sample.options (Some "a@x") false None in
  let w := Sample.session ∅ [] in
  (run o w).1 = Raised (UnboundLocalError "save_email")
  ∧ disk (run o w).2 = disk w
  ∧ calls (run o w).2 = calls w.
Proof.
  intros H o w.
  apply (run_provided_email_unbound (H := H) o w "a@x" ∅).
  - reflexivity.
  - reflexivity.
  - right. split; reflexivity.
  - exact I.
  - exact I.
  - left. reflexivity.
Defined.

(** [status] on the way through its two halves. *)
Lemma status_no_flow `{Externals} flow_id flow_instance_id raw csf w :
  status_resolve (of_option flow_id) (of_option flow_instance_id) csf w
    = (Ok None, add_shown (Printed no_flow_message) w) →
  status flow_id flow_instance_id raw csf w
    = (Ok (), add_shown (Printed no_flow_message) w).
Proof. intros Hr. unfold status. rewrite (bind_ok _ _ _ _ _ Hr). reflexivity. Qed.

(** C3. [status] takes each identifier from the command line when it is
    given there and from the state file otherwise. With both given, the
    file is not read. With one missing, a state file that is absent, or
    that leaves one of the two identifiers missing, makes [status] print
    its no-Flow message and return: the world differs by that one line, so
    no call is made on the client. Otherwise the two identifiers resolved,
    and the saved service instance, go on to the query. *)
Theorem status_resolution `{Externals} (flow_id flow_instance_id : option string)
    (raw : bool) (csf : option string) (w : world) :
  sys_stdout w = Terminal →
  let fid := of_option flow_id in
  let iid := of_option flow_instance_id in
  let path := state_file_path csf in
  let no_flow := (Ok (), add_shown (Printed no_flow_message) w) in
  (truthy fid = true → truthy iid = true →
     status_resolve fid iid csf w = (Ok (Some (fid, iid, None)), w))
  ∧ (truthy fid && truthy iid = false → files w !! path = None →
       status flow_id flow_instance_id raw csf w = no_flow)
  ∧ (truthy fid && truthy iid = false →
     ∀ d, files w !! path = Some (JsonText (PDict d)) →
       let f := if truthy fid then fid else default PNone (d !! "flow_id") in
       let i := if truthy iid then iid
                else default PNone (d !! "flow_instance_id") in
       (truthy f && truthy i = false →
          status flow_id flow_instance_id raw csf w = no_flow)
       ∧ (truthy f && truthy i = true →
            status_resolve fid iid csf w =
              (Ok (Some (f, i, Some (default PNone (d !! "service_instance")))), w))).
Proof.
  intros Hs fid iid path no_flow. split; [|split].
  - apply status_resolve_explicit.
  - intros Hx Hfile. apply status_no_flow.
    apply status_resolve_missing; assumption.
  - intros Hx d Hfile f i.
    pose proof (status_resolve_record fid iid csf w d Hs Hx Hfile) as Hr.
    fold (fallback fid d "flow_id") in f.
    change f with (fallback fid d "flow_id").
    change i with (fallback iid d "flow_instance_id").
    split; intros Hfi; rewrite Hfi in Hr.
    + apply status_no_flow, Hr.
    + exact Hr.
Qed.

Lemma status_resolution_witness :
  let H := Sample.externals Sample.answers in
  let w := Sample.session (Sample.with_state Sample.earlier) [] in
  status_resolve (of_option (Some "F1")) (of_option None) None w
    = (Ok (Some (PStr "F1", PStr "I2", Some (PStr "dev"))), w).
Proof.
  intros H w.
  destruct (status_resolution (H := H) (Some "F1") None false None w eq_refl)
    as (_ & _ & Hrecord).
  apply (Hrecord eq_refl Sample.earlier eq_refl). reflexivity.
Defined.

(** C4 fails on the code. With both identifiers given on the command
    line, lines 150-162 are skipped and with them the only assignment to
    [service_instance]; building the client at line 164 reads the unbound
    local, the handler of line 166 takes the [UnboundLocalError], and
    [status] prints an error and returns without any call on the client. *)
Theorem status_explicit_ids_unbound `{Externals} (flow_id flow_instance_id : string)
    (raw : bool) (csf : option string) (w : world) :
  sys_stdout w = Terminal →
  truthy (PStr flow_id) = true → truthy (PStr flow_instance_id) = true →
  status (Some flow_id) (Some flow_instance_id) raw csf w =
    (Ok (), add_shown
       (Printed (status_error (PStr flow_id) raw
                              (UnboundLocalError "service_instance"))) w).
Proof.
  intros Hs Hf Hi. unfold status.
  rewrite (bind_ok _ _ _ _ _
    (status_resolve_explicit (PStr flow_id) (PStr flow_instance_id) csf w Hf Hi)).
  apply status_query_unbound, Hs.
Qed.

Lemma status_explicit_ids_unbound_witness :
  let H := Sample.externals Sample.answers in
  let w := Sample.session (Sample.with_state Sample.earlier) [] in
  status (Some "F1") (Some "I1") false None w =
    (Ok (), add_shown
       (Printed (status_error (PStr "F1") false
                              (UnboundLocalError "service_instance"))) w).
Proof.
  intros H w.
  apply (status_explicit_ids_unbound (H := H) "F1" "I1" false None w);
    reflexivity.
Defined.

(** The sibling path: with an identifier taken from the state file the
    local is bound, the client is made and asked, and the answer is shown
    in the form the caller chose. *)
Lemma status_fallback_queries `{Externals} (flow_id flow_instance_id : option string)
    (raw : bool) (csf : option string) (w : world) (d : gmap string pyval)
    (v res : pyval) :
  sys_stdout w = Terminal →
  let fid := fallback (of_option flow_id) d "flow_id" in
  let iid := fallback (of_option flow_instance_id) d "flow_instance_id" in
  let si := default PNone (d !! "service_instance") in
  truthy (of_option flow_id) && truthy (of_option flow_instance_id) = false →
  files w !! state_file_path csf = Some (JsonText (PDict d)) →
  truthy fid && truthy iid = true →
  remote (CfdeClient_init (status_client si)) = inr v →
  remote (check_status_call si fid iid) = inr res →
  status flow_id flow_instance_id raw csf w =
    (if raw then print (json_dumps res)
     else clean_status ← py_getitem res "clean_status"; print (py_str clean_status))
      (add_call (check_status_call si fid iid)
         (add_call (CfdeClient_init (status_client si)) w)).
Proof.
  intros Hs fid iid si Hx Hfile Hfi Hinit Hcheck. unfold status.
  pose proof (status_resolve_record _ _ csf w d Hs Hx Hfile) as Hr.
  fold fid iid in Hr. rewrite Hfi in Hr.
  rewrite (bind_ok _ _ _ _ _ Hr).
  apply (status_query_answer fid iid si raw w v res); assumption.
Qed.

(** C2. [logout] when making the client raises: an exception whose third
    argument is "invalid_grant" is absorbed, and the command ends, without
    raising, on the same two lines as when the tokens are revoked; any
    other exception comes out of the command. In every case, and from any
    world, [sys.stdin] and [sys.stdout] are again what they were. *)
Theorem logout_outcomes `{Externals} (w : world) :
  sys_stdout w = Terminal →
  let said_goodbye := ["Logging out and revoking tokens"; "You are logged out."] in
  (∀ e, remote (CfdeClient_init probe_client) = inl e →
        is_invalid_grant e = true →
        logout w =
          (Ok (), after_logout w said_goodbye [CfdeClient_init probe_client]))
  ∧ (∀ v v', remote (CfdeClient_init probe_client) = inr v →
             remote logout_call = inr v' →
             logout w =
               (Ok (), after_logout w said_goodbye
                         [CfdeClient_init probe_client; logout_call]))
  ∧ (∀ e, remote (CfdeClient_init probe_client) = inl e →
          is_invalid_grant e = false →
          logout w =
            (Raised e, after_logout w ["Logging out and revoking tokens"]
                         [CfdeClient_init probe_client]))
  ∧ (∀ w', sys_stdin (logout w').2 = sys_stdin w'
           ∧ sys_stdout (logout w').2 = sys_stdout w').
Proof.
  intros Hs said_goodbye. split; [|split; [|split]].
  - intros e. apply logout_invalid_grant, Hs.
  - intros v v'. apply logout_revokes, Hs.
  - intros e. apply logout_other_exception, Hs.
  - apply logout_restores_streams.
Qed.

Lemma logout_outcomes_witness :
  let H := Sample.externals Sample.no_tokens in
  let w := Sample.session ∅ [] in
  logout w =
    (Ok (), after_logout w ["Logging out and revoking tokens"; "You are logged out."]
                         [CfdeClient_init probe_client]).
Proof.
  intros H w.
  destruct (logout_outcomes (H := H) w eq_refl) as (Habsorbed & _).
  apply (Habsorbed Sample.invalid_grant); reflexivity.
Defined.

(** C8. A dry run leaves the disk as it was: no file is opened for
    writing. And whenever [run] does change the disk, the run was not a
    dry run, the client had accepted the submission, and the email that
    the state file then holds is the one [run] settled on when the user's
    decision [save], taken before the submission, was to save it, and the
    one the file already held when it was not. *)
Theorem run_saves_only_after_success `{Externals} (o : run_options) (w : world) :
  (dry_run o = true → disk (run o w).2 = disk w)
  ∧ (disk (run o w).2 ≠ disk w →
       dry_run o = false
       ∧ ∃ d email save bag acls w2 R d',
           run_prepared o w d email save bag acls w2
           ∧ flow_started o email bag acls w2 R
           ∧ disk (run o w).2 = saved o d' w
           ∧ d' !! "author_email" = if save then Some email else d !! "author_email").
Proof.
  split.
  - intros Hdry. apply run_dry_disk, Hdry.
  - intros Hchanged.
    destruct (run_cases o w)
      as [Hsame | (Hdry & d & email & save & bag & acls & w2 & R & p & f & fi
                   & Hprep & Hstart & _ & _ & _ & Hdisk)];
      [contradiction|].
    split; [exact Hdry|].
    exists d, email, save, bag, acls, w2, R, (flow_record o (kept d email save) p f fi).
    repeat (split; [assumption|]).
    apply flow_record_author_email.
Qed.

Lemma run_saves_only_after_success_witness :
  let H := Sample.externals Sample.answers in
  let o := Sample.options None true None in
  let w := Sample.session (Sample.with_state Sample.earlier) [] in
  disk (run o w).2 = disk w.
Proof.
  intros H o w.
  apply (run_saves_only_after_success (H := H) o w). reflexivity.
Defined.



(** C7. Once [run] has settled the email, whatever the [try] suite
    around the client raises is caught: [run] prints it and returns, and
    the disk is as it was. That suite raises what making the client
    raises, and what [start_deriva_flow] raises. And a report whose
    [success] is false has its [error] printed, after which [run] returns
    with the disk as it was. *)
Theorem run_soft_failures `{Externals} (o : run_options) (w0 : world)
    (d : gmap string pyval) (email : pyval) (save : bool) (bag acls : pyval)
    (w : world) :
  run_prepared o w0 d email save bag acls w →
  sys_stdout w = Terminal →
  (∀ e w1, run_call_client o email bag acls w = (Raised e, w1) →
     run o w0 = (Ok (), add_shown (Printed (start_error_message e)) w1)
     ∧ disk (run o w0).2 = disk w0)
  ∧ (∀ e, remote (CfdeClient_init (run_client o)) = inl e →
       (run_call_client o email bag acls w).1 = Raised e)
  ∧ (∀ v m e, bag = PDict m →
       remote (CfdeClient_init (run_client o)) = inr v →
       forallb (λ kv : string * pyval, bool_decide (m !! kv.1 = None))
               (flow_kwargs o acls) = true →
       remote (start_call o email ((flow_kwargs o acls ++ map_to_list m)%list)) = inl e →
       (run_call_client o email bag acls w).1 = Raised e)
  ∧ (∀ R w1 s error,
       run_call_client o email bag acls w = (Ok (PDict R), w1) →
       R !! "success" = Some s → truthy s = false → R !! "error" = Some error →
       run o w0 = (Ok (), add_shown (Printed (startup_error_message error)) w1)
       ∧ disk (run o w0).2 = disk w0).
Proof.
  intros Hprep Hs.
  pose proof (run_prepared_run _ _ _ _ _ _ _ _ Hprep) as Hrun.
  pose proof (run_prepared_disk _ _ _ _ _ _ _ _ Hprep) as Hdisk.
  split; [|split; [|split]].
  - intros e w1 Hc.
    destruct (run_start_flow_raised o (PDict (kept d email save)) email bag acls
                w e w1 Hs Hc) as [Hr Hd].
    rewrite Hrun, Hr. split; [reflexivity|]. simpl.
    change (disk (add_shown (Printed (start_error_message e)) w1)) with (disk w1).
    congruence.
  - intros e. apply run_call_client_init_raises, Hs.
  - intros v m e ->. apply run_call_client_start_raises, Hs.
  - intros R w1 s error Hc Hsucc Hfalse Herr.
    destruct (run_start_flow_refused o (PDict (kept d email save)) email bag acls
                w R w1 s error Hs Hc Hsucc Hfalse Herr) as [Hr Hd].
    rewrite Hrun, Hr. split; [reflexivity|]. simpl.
    change (disk (add_shown (Printed (startup_error_message error)) w1)) with (disk w1).
    congruence.
Qed.

Lemma run_soft_failures_witness :
  let H := Sample.externals Sample.fails in
  let o := Sample.options None false None in
  let w0 := Sample.session (Sample.with_state Sample.earlier) [] in
  (run o w0).1 = Ok () ∧ disk (run o w0).2 = disk w0.
Proof.
  intros H o w0.
  pose (w := add_shown (Printed "Using saved email 'a@x'") w0).
  assert (Hprep : run_prepared o w0 Sample.earlier (PStr "a@x") false (PDict ∅) PNone w).
  { exists w0, w0, w0, w. repeat split; reflexivity. }
  destruct (run_soft_failures (H := H) o w0 Sample.earlier (PStr "a@x") false
              (PDict ∅) PNone w Hprep eq_refl) as (Hcaught & _).
  destruct (Hcaught Sample.unreachable
              (run_call_client o (PStr "a@x") (PDict ∅) PNone w).2)
    as [Hrun Hdisk]; [vm_compute; reflexivity|].
  split; [rewrite Hrun; reflexivity | exact Hdisk].
Defined.

(** C10. Whenever [run] saves, the record it writes has, for
    [service_instance], the value of this invocation's option, so [null]
    when the option was not given, whatever an earlier run had saved there.
    A later [status] that takes an identifier from that file reads the
    value back and makes its client with it. *)
Theorem run_overwrites_service_instance `{Externals} (o : run_options) (w : world) :
  disk (run o w).2 ≠ disk w →
  let w' := (run o w).2 in
  ∃ d' : gmap string pyval,
    files w' !! state_file_path (client_state_file o) = Some (JsonText (PDict d'))
    ∧ d' !! "service_instance" = Some (of_option (service_instance o))
    ∧ (service_instance o = None →
       ∀ (flow_id flow_instance_id : option string) (raw : bool),
         sys_stdout w' = Terminal →
         truthy (of_option flow_id) && truthy (of_option flow_instance_id) = false →
         let f := fallback (of_option flow_id) d' "flow_id" in
         let i := fallback (of_option flow_instance_id) d' "flow_instance_id" in
         truthy f && truthy i = true →
         status_resolve (of_option flow_id) (of_option flow_instance_id)
                        (client_state_file o) w'
           = (Ok (Some (f, i, Some PNone)), w')
         ∧ ∃ rest,
             calls (status flow_id flow_instance_id raw (client_state_file o) w').2
               = (calls w' ++ CfdeClient_init (status_client PNone) :: rest)%list).
Proof.
  intros Hchanged w'.
  destruct (run_cases o w)
    as [Hsame | (Hdry & d & email & save & bag & acls & w2 & R & p & f & fi
                 & _ & _ & _ & _ & _ & Hdisk)];
    [contradiction|].
  pose proof (saved_files _ _ _ _ Hdisk) as Hfile. fold w' in Hfile.
  pose proof (flow_record_service_instance o (kept d email save) p f fi) as Hsi.
  exists (flow_record o (kept d email save) p f fi).
  split; [exact Hfile|]. split; [exact Hsi|].
  intros Hnone flow_id flow_instance_id raw Hs Hx f' i' Hfi.
  rewrite Hnone in Hsi. simpl in Hsi.
  pose proof (status_resolve_record _ _ _ w' _ Hs Hx Hfile) as Hr.
  fold f' i' in Hr. rewrite Hfi, Hsi in Hr. simpl in Hr.
  split; [exact Hr|].
  unfold status. rewrite (bind_ok _ _ _ _ _ Hr).
  apply status_query_first_call.
Qed.

Lemma run_overwrites_service_instance_witness :
  let H := Sample.externals Sample.answers in
  let o := Sample.options None false None in
  let w := Sample.session (Sample.with_state Sample.earlier) [] in
  ∃ d' : gmap string pyval,
    files (run o w).2 !! Sample.home = Some (JsonText (PDict d'))
    ∧ d' !! "service_instance" = Some PNone.
Proof.
  intros H o w.
  destruct (run_overwrites_service_instance (H := H) o w) as (d' & Hfile & Hsi & _).
  - intros Hsame. apply (f_equal snd) in Hsame. vm_compute in Hsame. discriminate.
  - exists d'. split; [exact Hfile | exact Hsi].
Defined.

(** C6, as the code has it. [run] saves the record it holds in memory, the
    one loaded when the command started with the new values set in it,
    whatever the state file holds by then: the file is not read again. The
    save opens the file for writing, which empties it, and then dumps the
    record: between the two the file holds nothing that parses, after them
    it holds the record. *)
Theorem run_record_flow_writes_in_place `{Externals} (o : run_options)
    (d R : gmap string pyval) (p : string) (f fi : pyval) (w : world) :
  R !! "fair_re_dest_path" = Some (PStr p) →
  R !! "flow_id" = Some f → R !! "flow_instance_id" = Some fi →
  let path := state_file_path (client_state_file o) in
  let record := PDict (flow_record o d p f fi) in
  disk (run_record_flow o (PDict d) (PDict R) w).2
    = (<[path := JsonText record]> (files w), (opened_w w ++ [path])%list)
  ∧ dump_json record path = seq_steps [open_w path; json_dump record path]
  ∧ (load_json path (open_w path w).2).1 = Raised JSONDecodeError
  ∧ (load_json path (dump_json record path w).2).1 = Ok record.
Proof.
  intros Hdest Hf Hfi path record. split; [|split; [|split]].
  - apply run_record_flow_saves; assumption.
  - reflexivity.
  - unfold load_json, open_w. simpl. rewrite lookup_insert_eq. reflexivity.
  - unfold load_json, dump_json. simpl. rewrite lookup_insert_eq. reflexivity.
Qed.

Lemma run_record_flow_writes_in_place_witness :
  let H := Sample.externals Sample.answers in
  let o := Sample.options None false None in
  let w := Sample.session (Sample.with_state Sample.earlier) [] in
  (load_json Sample.home (open_w Sample.home w).2).1 = Raised JSONDecodeError.
Proof.
  intros H o w.
  destruct (run_record_flow_writes_in_place (H := H) o ∅ Sample.started
              "/public/bag.zip" (PStr "F9") (PStr "I9") w)
    as (_ & _ & Hemptied & _); [reflexivity | reflexivity | reflexivity |].
  exact Hemptied.
Defined.

(** C6 as stated fails on the code, twice over. The save is not atomic: a
    crash after the file is opened and before the record is dumped leaves
    the state file empty, which is neither the record it held nor the new
    one. And the save does not read the file again: a field that reached
    the file after [run] loaded it is lost. *)
Lemma run_save_not_atomic_nor_reread :
  let H := Sample.externals Sample.answers in
  let o := Sample.options None false None in
  let w := Sample.session (Sample.with_state Sample.earlier) [] in
  ¬ atomic_on Sample.home
      (dump_steps (PDict (<["flow_id" := PStr "F9"]> Sample.earlier)) Sample.home) w
  ∧ ∃ d' : gmap string pyval,
      files (run_record_flow o (PDict ∅) (PDict Sample.started) w).2 !! Sample.home
        = Some (JsonText (PDict d'))
      ∧ Sample.earlier !! "note" = Some (PStr "kept")
      ∧ d' !! "note" = None.
Proof.
  intros H o w. split.
  - intros Hatomic. destruct (Hatomic 1) as [Hold | Hnew].
    + vm_compute in Hold. discriminate.
    + vm_compute in Hnew. discriminate.
  - eexists. split; [vm_compute; reflexivity|].
    split; vm_compute; reflexivity.
Qed.

(** ** Further properties of the commands *)

(** *** [run]: the author email *)

Lemma input_console prompt w l rest :
  sys_stdout w = Terminal → sys_stdin w = Console → typed w = l :: rest →
  input prompt w = (Ok l, answered prompt rest w).
Proof.
  intros Hout Hin Hty. unfold input, write_stdout, bind. rewrite Hout.
  unfold read_line. change (sys_stdin (add_shown _ w)) with (sys_stdin w).
  change (typed (add_shown (Prompted prompt) w)) with (typed w).
  rewrite Hin, Hty. reflexivity.
Qed.

Lemma input_eof prompt w :
  sys_stdout w = Terminal → sys_stdin w = Console → typed w = [] →
  input prompt w = (Raised EOFError, add_shown (Prompted prompt) w).
Proof.
  intros Hout Hin Hty. unfold input, write_stdout, bind. rewrite Hout.
  unfold read_line. change (sys_stdin (add_shown _ w)) with (sys_stdin w).
  change (typed (add_shown (Prompted prompt) w)) with (typed w).
  rewrite Hin, Hty. reflexivity.
Qed.

Lemma said_stdin b l w : sys_stdin (said b l w) = sys_stdin w.
Proof. destruct b; reflexivity. Qed.
Lemma said_typed b l w : typed (said b l w) = typed w.
Proof. destruct b; reflexivity. Qed.

Lemma run_determine_email_calls `{Externals} o state :
  preserves calls (run_determine_email o state).
Proof. unfold run_determine_email. frame. Qed.

(** Lines 83-86: no email given, one saved. *)
Lemma run_determine_email_saved `{Externals} (o : run_options)
    (S : gmap string pyval) (w : world) (v : pyval) :
  sys_stdout w = Terminal →
  author_email o = None →
  S !! "author_email" = Some v → v ≠ PNone →
  run_determine_email o (PDict S) w =
    (Ok (v, Some false),
     add_shown (Printed (saved_email_message v))
               (said (verbose o) "Determining author email" w)).
Proof.
  intros Hs He HS Hv. unfold run_determine_email, saved_email_message.
  rewrite (bind_ok _ _ _ _ _ (when_print _ _ _ Hs)).
  rewrite (bind_ok _ _ _ _ _ (py_get_dict S "author_email" _)).
  rewrite He, HS. simpl.
  assert (Hp : print (format "Using saved email '{}'" [py_str v])
                 (said (verbose o) "Determining author email" w)
               = (Ok (), add_shown (Printed (format "Using saved email '{}'" [py_str v]))
                           (said (verbose o) "Determining author email" w))).
  { apply print_Terminal. rewrite said_stdout. exact Hs. }
  destruct v; try contradiction; rewrite (bind_ok _ _ _ _ _ Hp); reflexivity.
Qed.



Lemma run_keep_email_terminal `{Externals} o d email save w :
  sys_stdout w = Terminal →
  run_keep_email o (PDict d) email (Some save) w
    = (Ok (PDict (kept d email save)), said (save && verbose o) (keep_message email) w).
Proof.
  intros Hs. unfold run_keep_email, kept, keep_message.
  cbv beta iota delta [bind ret local py_setitem].
  destruct save; [|reflexivity].
  rewrite (when_print _ _ _ Hs). reflexivity.
Qed.

(** From the start of [run] to the client call, given how the email is
    determined. *)
Lemma run_prepared_intro `{Externals} o w S email save wd :
  sys_stdout w = Terminal →
  holds_state w (state_file_path (client_state_file o)) S →
  loadable w (bag_kwargs_file o) → loadable w (acl_file o) →
  run_determine_email o (PDict S)
    (said (verbose o) (load_message w (state_file_path (client_state_file o))) w)
    = (Ok (email, Some save), wd) →
  ∃ bag acls,
    run_prepared o w S email save bag acls
      (said (save && verbose o) (keep_message email) wd).
Proof.
  intros Hs HS Hb Ha He.
  set (w1 := said _ _ w) in *.
  assert (Hs1 : sys_stdout w1 = Terminal) by (unfold w1; rewrite said_stdout; exact Hs).
  destruct (load_optional_loadable w1 _ (PDict ∅) (loadable_said _ _ _ _ Hb))
    as [bag Hbag].
  destruct (load_optional_loadable w1 _ PNone (loadable_said _ _ _ _ Ha))
    as [acls Hacls].
  exists bag, acls, w1, w1, w1, wd.
  split; [exact (run_load_state_holds o w S Hs HS)|].
  split; [exact Hbag|]. split; [exact Hacls|]. split; [exact He|].
  apply run_keep_email_terminal.
  rewrite (preserves_eq sys_stdout _ _ _ _ (run_determine_email_stdout _ _) He).
  exact Hs1.
Qed.

(** X1. With no email on the command line and one in the state file,
    [run] gets to the client call without asking anything: it settles on
    the saved email, decides not to save, leaves the record as loaded, and
    says which email it uses whether or not it is verbose. *)
Theorem run_prepares_saved_email `{Externals} (o : run_options) (w : world)
    (S : gmap string pyval) (v : pyval) :
  sys_stdout w = Terminal →
  author_email o = None →
  holds_state w (state_file_path (client_state_file o)) S →
  S !! "author_email" = Some v → v ≠ PNone →
  loadable w (bag_kwargs_file o) → loadable w (acl_file o) →
  ∃ bag acls,
    run_prepared o w S v false bag acls
      (add_shown (Printed (saved_email_message v))
         (said (verbose o) "Determining author email"
            (said (verbose o)
               (load_message w (state_file_path (client_state_file o))) w))).
Proof.
  intros Hs He HS Hv Hnone Hb Ha.
  apply (run_prepared_intro o w S v false _ Hs HS Hb Ha).
  apply run_determine_email_saved; [rewrite said_stdout|..]; assumption.
Qed.

Lemma run_prepares_saved_email_witness :
  let H := Sample.externals Sample.answers in
  let o := Sample.options None false None in
  let w := Sample.session (Sample.with_state Sample.earlier) [] in
  ∃ bag acls,
    run_prepared o w Sample.earlier (PStr "a@x") false bag acls
      (add_shown (Printed (saved_email_message (PStr "a@x"))) w).
Proof.
  intros H o w.
  apply (run_prepares_saved_email (H := H) o w Sample.earlier (PStr "a@x")).
  - reflexivity.
  - reflexivity.
  - left. reflexivity.
  - reflexivity.
  - discriminate.
  - exact I.
  - exact I.
Defined.





(** The keyboard runs dry during the two prompts of lines 90-92. *)
Lemma run_determine_email_eof `{Externals} o S w :
  sys_stdout w = Terminal → sys_stdin w = Console →
  author_email o = None →
  default PNone (S !! "author_email") = PNone →
  length (typed w) < 2 →
  (run_determine_email o (PDict S) w).1 = Raised EOFError.
Proof.
  intros Hout Hin He HS Hty. unfold run_determine_email.
  rewrite (bind_ok _ _ _ _ _ (when_print _ _ _ Hout)).
  rewrite (bind_ok _ _ _ _ _ (py_get_dict S "author_email" _)).
  rewrite He, HS.
  set (w1 := said (verbose o) "Determining author email" w).
  assert (Hout1 : sys_stdout w1 = Terminal) by (unfold w1; rewrite said_stdout; exact Hout).
  rewrite (bind_ok _ _ _ _ _ (when_print _ _ _ Hout1)).
  set (w2 := said (verbose o) "No saved email found and no email provided" w1).
  assert (Hout2 : sys_stdout w2 = Terminal) by (unfold w2; rewrite said_stdout; exact Hout1).
  assert (Hin2 : sys_stdin w2 = Console)
    by (unfold w2, w1; rewrite !said_stdin; exact Hin).
  assert (Hty2 : typed w2 = typed w) by (unfold w2, w1; rewrite !said_typed; reflexivity).
  destruct (typed w) as [|l1 [|l2 rest]] eqn:Hlines; [| |simpl in Hty; lia].
  - pose proof (input_eof email_prompt w2 Hout2 Hin2 Hty2) as Hi.
    unfold email_prompt in Hi at 1. rewrite (bind_raised _ _ _ _ _ Hi). reflexivity.
  - pose proof (input_console email_prompt w2 l1 [] Hout2 Hin2 Hty2) as Hi1.
    unfold email_prompt in Hi1 at 1. rewrite (bind_ok _ _ _ _ _ Hi1).
    pose proof (input_eof (save_prompt (strip l1)) (answered email_prompt [] w2)
                  Hout2 Hin2 eq_refl) as Hi2.
    unfold save_prompt in Hi2 at 1. rewrite (bind_raised _ _ _ _ _ Hi2). reflexivity.
Qed.

(** X4. When [run] has to ask for the email and the keyboard gives fewer
    than the two lines asked for, the [EOFError] of [input] comes out of
    [run]: no handler is around lines 90-92. Nothing was written and the
    client was not called. *)
Theorem run_email_prompt_eof `{Externals} (o : run_options) (w : world)
    (S : gmap string pyval) :
  sys_stdout w = Terminal → sys_stdin w = Console →
  author_email o = None →
  holds_state w (state_file_path (client_state_file o)) S →
  default PNone (S !! "author_email") = PNone →
  loadable w (bag_kwargs_file o) → loadable w (acl_file o) →
  length (typed w) < 2 →
  (run o w).1 = Raised EOFError
  ∧ disk (run o w).2 = disk w
  ∧ calls (run o w).2 = calls w.
Proof.
  intros Hout Hin He HS Hnone Hb Ha Hty.
  destruct (run_prefix o w S Hout HS Hb Ha) as (bag & acls & Hrun).
  simpl in Hrun. rewrite Hrun.
  set (w1 := said _ _ w).
  pose proof (run_determine_email_eof o S w1) as Heof.
  unfold w1 in Heof. rewrite said_stdout, said_stdin, said_typed in Heof.
  specialize (Heof Hout Hin He Hnone Hty). fold w1 in Heof.
  pose proof (run_determine_email_disk o (PDict S) w1) as Hd.
  pose proof (run_determine_email_calls o (PDict S) w1) as Hc.
  unfold bind.
  destruct (run_determine_email o (PDict S) w1) as [[r|e] w2]; simpl in *;
    [discriminate|].
  injection Heof as ->. split; [reflexivity|].
  unfold w1 in Hd, Hc. rewrite said_disk in Hd. rewrite said_calls in Hc. auto.
Qed.

Lemma run_email_prompt_eof_witness :
  let H := Sample.externals Sample.answers in
  let o := Sample.options None false None in
  let w := Sample.session ∅ ["b@y"] in
  (run o w).1 = Raised EOFError
  ∧ disk (run o w).2 = disk w
  ∧ calls (run o w).2 = calls w.
Proof.
  intros H o w.
  apply (run_email_prompt_eof (H := H) o w ∅).
  - reflexivity.
  - reflexivity.
  - reflexivity.
  - right. split; reflexivity.
  - reflexivity.
  - exact I.
  - exact I.
  - simpl. lia.
Defined.

(** The fourth case, on a first run with [-e]. *)
Lemma run_determine_email_unbound_only_witness :
  let H := Sample.externals Sample.answers in
  let o := Sample.options (Some "a@x") false None in
  let w := Sample.session ∅ [] in
  ∃ a S, author_email o = Some a ∧ PStr "a@x" = PStr a ∧ PDict ∅ = PDict S
         ∧ (default PNone (S !! "author_email") = PNone
            ∨ default PNone (S !! "author_email") = PStr a).
Proof.
  intros H o w.
  apply (run_determine_email_unbound_only (H := H) o (PDict ∅) w (PStr "a@x") w).
  reflexivity.
Defined.

(** X6. Whenever the email is determined, it is not [None]: it is the
    option given, the line typed, or a saved value that is not [None]. *)
Theorem run_determine_email_not_none `{Externals} (o : run_options) (state : pyval)
    (w : world) (email : pyval) (save : option bool) (w' : world) :
  run_determine_email o state w = (Ok (email, save), w') → email ≠ PNone.
Proof.
  unfold run_determine_email.
  cbv beta iota delta [bind ret raise py_get].
  destruct (when _ _ w) as [[[]|e] w1]; [|discriminate].
  destruct state as [| | | | |S]; try discriminate.
  destruct (author_email o) as [a|], (default PNone (S !! "author_email")) eqn:Hsaved;
    simpl;
    repeat first
      [ discriminate
      | intros [= <- _ _]
      | match goal with
        | |- context [if ?b then _ else _] => destruct b
        | |- context [when ?b ?m ?x] => destruct (when b m x) as [[[]|?] ?]
        | |- context [input ?p ?x] => destruct (input p x) as [[?|?] ?]
        | |- context [print ?p ?x] => destruct (print p x) as [[[]|?] ?]
        end ].
Qed.

Lemma run_determine_email_not_none_witness :
  let H := Sample.externals Sample.answers in
  let o := Sample.options None false None in
  let w := Sample.session ∅ [EmptyString; "n"] in
  let w' := answered (save_prompt EmptyString) [] (answered email_prompt ["n"] w) in
  run_determine_email o (PDict ∅) w = (Ok (PStr EmptyString, Some false), w')
  ∧ PStr EmptyString ≠ PNone.
Proof.
  intros H o w w'.
  assert (Hrun : run_determine_email o (PDict ∅) w
                 = (Ok (PStr EmptyString, Some false), w')) by reflexivity.
  split; [exact Hrun|].
  exact (run_determine_email_not_none (H := H) o (PDict ∅) w (PStr EmptyString)
           (Some false) w' Hrun).
Defined.

(** *** [run]: what stops it before the client is called *)

Lemma py_get_not_dict v k w :
  is_dict v = false → py_get v k w = (Raised (AttributeError no_get), w).
Proof. destruct v; [reflexivity..|discriminate]. Qed.

(** X7. A state file that parses to something other than an object (a
    list, a string, a number, [null]) is loaded without complaint; [run]
    then fails at line 73, where [state.get] raises [AttributeError], and
    the error comes out of [run] before any prompt or call. *)
Theorem run_state_not_object `{Externals} (o : run_options) (w : world) (v : pyval) :
  sys_stdout w = Terminal →
  files w !! state_file_path (client_state_file o) = Some (JsonText v) →
  is_dict v = false →
  loadable w (bag_kwargs_file o) → loadable w (acl_file o) →
  run o w =
    (Raised (AttributeError no_get),
     said (verbose o) "Determining author email"
       (said (verbose o) "Loaded previous state" w)).
Proof.
  intros Hs Hf Hv Hb Ha. unfold run.
  rewrite (bind_ok _ _ _ _ _ (run_load_state_found o w v Hs Hf)).
  set (w1 := said _ _ w).
  destruct (load_optional_loadable w1 _ (PDict ∅) (loadable_said _ _ _ _ Hb))
    as [bag Hbag].
  destruct (load_optional_loadable w1 _ PNone (loadable_said _ _ _ _ Ha))
    as [acls Hacls].
  rewrite (bind_ok _ _ _ _ _ Hbag), (bind_ok _ _ _ _ _ Hacls).
  apply bind_raised. unfold run_determine_email.
  assert (Hs1 : sys_stdout w1 = Terminal) by (unfold w1; rewrite said_stdout; exact Hs).
  rewrite (bind_ok _ _ _ _ _ (when_print _ _ _ Hs1)).
  apply bind_raised, py_get_not_dict, Hv.
Qed.

Lemma run_state_not_object_witness :
  let H := Sample.externals Sample.answers in
  let o := Sample.options None false None in
  let w := Sample.session {[ Sample.home := JsonText (PList []) ]} [] in
  run o w = (Raised (AttributeError no_get), w).
Proof.
  intros H o w.
  apply (run_state_not_object (H := H) o w (PList []));
    [reflexivity | reflexivity | reflexivity | exact I | exact I].
Defined.

Lemma load_optional_named p absent w :
  truthy (PStr p) = true → load_optional (Some p) absent w = load_json p w.
Proof. intros Hp. unfold load_optional. rewrite Hp. reflexivity. Qed.

Lemma load_json_unreadable p w :
  (files w !! p = None → load_json p w = (Raised (FileNotFoundError p), w))
  ∧ (files w !! p = Some Unparsable → load_json p w = (Raised JSONDecodeError, w)).
Proof. unfold load_json. split; intros ->; reflexivity. Qed.

(** X8. The two optional files are read with no handler around them
    (lines 57-67): when the file of bag keywords, or the ACL file, is named
    and is missing or does not parse, the error comes out of [run] right
    after the state is loaded, unlike a missing state file. *)
Theorem run_optional_file_unreadable `{Externals} (o : run_options) (w : world)
    (S : gmap string pyval) (p : string) :
  sys_stdout w = Terminal →
  holds_state w (state_file_path (client_state_file o)) S →
  truthy (PStr p) = true →
  let w1 := said (verbose o)
              (load_message w (state_file_path (client_state_file o))) w in
  (bag_kwargs_file o = Some p →
     (files w !! p = None → run o w = (Raised (FileNotFoundError p), w1))
     ∧ (files w !! p = Some Unparsable → run o w = (Raised JSONDecodeError, w1)))
  ∧ (acl_file o = Some p → loadable w (bag_kwargs_file o) →
     (files w !! p = None → run o w = (Raised (FileNotFoundError p), w1))
     ∧ (files w !! p = Some Unparsable → run o w = (Raised JSONDecodeError, w1))).
Proof.
  intros Hs HS Hp w1.
  pose proof (run_load_state_holds o w S Hs HS) as Hload. fold w1 in Hload.
  assert (Hfiles : files w1 = files w) by apply said_files.
  destruct (load_json_unreadable p w1) as [Hmissing Hbad]. rewrite Hfiles in *.
  split.
  - intros Hbag. unfold run. rewrite (bind_ok _ _ _ _ _ Hload), Hbag.
    split; intros Hfile; apply bind_raised; rewrite (load_optional_named _ _ _ Hp);
      auto.
  - intros Hacl Hb. unfold run. rewrite (bind_ok _ _ _ _ _ Hload).
    destruct (load_optional_loadable w1 _ (PDict ∅) (loadable_said _ _ _ _ Hb))
      as [bag Hbag].
    rewrite (bind_ok _ _ _ _ _ Hbag), Hacl.
    split; intros Hfile; apply bind_raised; rewrite (load_optional_named _ _ _ Hp);
      auto.
Qed.

Lemma run_optional_file_unreadable_witness :
  let H := Sample.externals Sample.answers in
  let o := RunOptions "data" None None None None None false false false false false
                      false None false (Some "kw.json") None None in
  let w := Sample.session {[ "kw.json" := Unparsable ]} [] in
  run o w = (Raised JSONDecodeError, w).
Proof.
  intros H o w.
  destruct (run_optional_file_unreadable (H := H) o w ∅ "kw.json") as [Hbag _].
  - reflexivity.
  - right. split; reflexivity.
  - reflexivity.
  - apply Hbag; reflexivity.
Defined.

(** *** [run]: the calls it makes on the client *)

Lemma run_load_state_calls `{Externals} o : preserves calls (run_load_state o).
Proof. unfold run_load_state. frame. Qed.

Lemma run_keep_email_calls `{Externals} o state email save :
  preserves calls (run_keep_email o state email save).
Proof. unfold run_keep_email. frame. Qed.

Lemma preserves_dump_json {X} (f : world → X) v path :
  (∀ fs w, f (set_files fs w) = f w) → (∀ p w, f (add_opened_w p w) = f w) →
  preserves f (dump_json v path).
Proof.
  intros Hfiles Hopened w. unfold dump_json, dump_steps, seq_steps, open_w, json_dump.
  cbv beta iota delta [bind ret]. simpl. rewrite Hfiles, Hopened, Hfiles. reflexivity.
Qed.

Lemma run_record_flow_calls `{Externals} o state res :
  preserves calls (run_record_flow o state res).
Proof.
  unfold run_record_flow. frame.
  all: try (apply preserves_dump_json; reflexivity).
Qed.

(** A keyword written out at line 106-111 that the bag keywords repeat. *)
Lemma splat_clash (explicit : kwargs) (m : gmap string pyval) k :
  k ∈ explicit.*1 → is_Some (m !! k) →
  forallb (λ kv : string * pyval, bool_decide (m !! kv.1 = None)) explicit = false.
Proof.
  intros Hk [v Hv].
  destruct (forallb _ explicit) eqn:Hall; [|reflexivity]. exfalso.
  apply list_elem_of_fmap in Hk as ([k' v'] & -> & Hin).
  rewrite forallb_forall in Hall.
  apply list_elem_of_In in Hin. specialize (Hall _ Hin).
  apply bool_decide_eq_true in Hall. simpl in *. congruence.
Qed.

Lemma run_call_client_splat_raises `{Externals} o email bag acls w v e :
  sys_stdout w = Terminal →
  remote (CfdeClient_init (run_client o)) = inr v →
  (∀ w', splat (flow_kwargs o acls) bag w' = (Raised e, w')) →
  run_call_client o email bag acls w =
    (Raised e, add_call (CfdeClient_init (run_client o))
                 (said (verbose o) "Initializing Flow" w)).
Proof.
  intros Hs Hinit Hsplat. unfold run_call_client.
  rewrite (bind_ok _ _ _ _ _ (when_print _ _ _ Hs)).
  unfold CfdeClient. fold (run_client o).
  cbv beta iota delta [bind call ret]. rewrite Hinit, Hsplat. reflexivity.
Qed.

(** X9. Bag keywords that are no JSON object, or that repeat a keyword
    [run] writes out itself, make the call of lines 106-111 raise
    [TypeError] while its arguments are put together: the client has been
    made, [start_deriva_flow] is never called, and [run] reports the error
    like any other failure to start and returns. *)
Theorem run_bag_kwargs_clash `{Externals} (o : run_options) (w0 : world)
    (d : gmap string pyval) (email : pyval) (save : bool) (bag acls : pyval)
    (w : world) (v : pyval) :
  run_prepared o w0 d email save bag acls w →
  sys_stdout w = Terminal →
  remote (CfdeClient_init (run_client o)) = inr v →
  is_dict bag = false
    ∨ (∃ m k, bag = PDict m ∧ k ∈ (flow_kwargs o acls).*1 ∧ is_Some (m !! k)) →
  ∃ msg,
    run o w0 =
      (Ok (), add_shown (Printed (start_error_message (TypeError msg)))
                (add_call (CfdeClient_init (run_client o))
                   (said (verbose o) "Initializing Flow" w))).
Proof.
  intros Hprep Hs Hinit Hbag.
  rewrite (run_prepared_run _ _ _ _ _ _ _ _ Hprep).
  assert (∃ msg, ∀ w', splat (flow_kwargs o acls) bag w' = (Raised (TypeError msg), w'))
    as [msg Hsplat].
  { destruct Hbag as [Hnot | (m & k & -> & Hk & Hm)].
    - exists "argument after ** must be a mapping".
      destruct bag; [reflexivity..|discriminate].
    - exists "got multiple values for keyword argument". intros w'.
      unfold splat. rewrite (splat_clash _ _ _ Hk Hm). reflexivity. }
  exists msg.
  pose proof (run_call_client_splat_raises o email bag acls w v _ Hs Hinit Hsplat) as Hc.
  apply (run_start_flow_raised o (PDict (kept d email save)) email bag acls w _ _ Hs Hc).
Qed.

Lemma run_bag_kwargs_clash_witness :
  let H := Sample.externals Sample.answers in
  let o := RunOptions "data" None None None None None false false false false false
                      false None false (Some "kw.json") None None in
  let w0 := Sample.session
              (<["kw.json" := JsonText (PDict {[ "dry_run" := PBool true ]})]>
                 (Sample.with_state Sample.earlier)) [] in
  let w := add_shown (Printed (saved_email_message (PStr "a@x"))) w0 in
  ∃ msg,
    run o w0 =
      (Ok (), add_shown (Printed (start_error_message (TypeError msg)))
                (add_call (CfdeClient_init (run_client o))
                   (said (verbose o) "Initializing Flow" w))).
Proof.
  intros H o w0 w.
  apply (run_bag_kwargs_clash (H := H) o w0 Sample.earlier (PStr "a@x") false
           (PDict {[ "dry_run" := PBool true ]}) PNone w PNone).
  - exists w0, w0, w0, w. repeat split; reflexivity.
  - reflexivity.
  - reflexivity.
  - right. exists {[ "dry_run" := PBool true ]}, "dry_run".
    split; [reflexivity|]. split; [|exists (PBool true); reflexivity].
    simpl. repeat constructor.
Defined.

Lemma run_call_client_calls `{Externals} o email bag acls w :
  ∃ l, calls (run_call_client o email bag acls w).2 = (calls w ++ l)%list
       ∧ (l = [] ∨ l = [CfdeClient_init (run_client o)]
          ∨ ∃ m, l = [CfdeClient_init (run_client o);
                      start_call o email ((flow_kwargs o acls ++ map_to_list m)%list)]).
Proof.
  unfold run_call_client, bind.
  pose proof (preserves_when calls (verbose o) (print "Initializing Flow")
                (preserves_print calls ltac:(reflexivity) _) w) as Hp.
  destruct (when _ _ w) as [[[]|e] w1]; simpl in Hp.
  2:{ exists []. rewrite app_nil_r. auto. }
  unfold CfdeClient, bind, call, ret. fold (run_client o).
  destruct (remote (CfdeClient_init (run_client o))) as [e|v].
  { exists [CfdeClient_init (run_client o)]. simpl. rewrite Hp. auto. }
  unfold splat.
  destruct bag as [| | | | |m]; cbv beta iota delta [raise ret];
    try (exists [CfdeClient_init (run_client o)]; simpl; rewrite Hp; auto).
  destruct (forallb _ (flow_kwargs o acls)); cbv beta iota.
  2:{ exists [CfdeClient_init (run_client o)]. simpl. rewrite Hp. auto. }
  fold (run_client o).
  fold (start_call o email ((flow_kwargs o acls ++ map_to_list m)%list)).
  exists [CfdeClient_init (run_client o);
          start_call o email ((flow_kwargs o acls ++ map_to_list m)%list)].
  split; [|right; right; exists m; reflexivity].
  destruct (remote (start_call _ _ _)); simpl; rewrite Hp, <- app_assoc; reflexivity.
Qed.

Lemma run_start_flow_calls `{Externals} o state email bag acls w :
  calls (run_start_flow o state email bag acls w).2
    = calls (run_call_client o email bag acls w).2.
Proof.
  unfold run_start_flow, try_except_else.
  destruct (run_call_client o email bag acls w) as [[res|e] w1]; simpl.
  2:{ apply print_calls. }
  assert (Hk : preserves calls
    (bind (py_getitem res "success") (λ success,
       if negb (truthy success)
       then bind (py_getitem res "error")
              (λ error, print (format "Error during Flow startup: {}" [py_str error]))
       else bind (py_getitem res "message") (λ message,
              bind (print (py_str message)) (λ _,
                if negb (dry_run o) then run_record_flow o state res else ret ()))))).
  { frame. all: apply run_record_flow_calls. }
  apply Hk.
Qed.

(** X10. Whatever happens, [run] calls the client at most twice and in
    this order: the constructor with the three login options, then
    [start_deriva_flow] on the client made, with the data path, the email
    and the keywords of lines 106-111 followed by the bag keywords. *)
Theorem run_calls_at_most_two `{Externals} (o : run_options) (w : world) :
  ∃ l, calls (run o w).2 = (calls w ++ l)%list
       ∧ (l = [] ∨ l = [CfdeClient_init (run_client o)]
          ∨ ∃ email acls m,
              l = [CfdeClient_init (run_client o);
                   start_call o email ((flow_kwargs o acls ++ map_to_list m)%list)]).
Proof.
  unfold run, bind.
  destruct (run_load_state o w) as [[state|e] wa] eqn:E1;
    pose proof (preserves_eq calls _ _ _ _ (run_load_state_calls o) E1) as C1.
  2:{ exists []. rewrite app_nil_r. auto. }
  destruct (load_optional (bag_kwargs_file o) (PDict ∅) wa) as [[bag|e] wb] eqn:E2;
    pose proof (preserves_eq calls _ _ _ _ (load_optional_preserves calls _ _) E2) as C2.
  2:{ exists []. rewrite app_nil_r. simpl. split; [congruence|auto]. }
  destruct (load_optional (acl_file o) PNone wb) as [[acls|e] wc] eqn:E3;
    pose proof (preserves_eq calls _ _ _ _ (load_optional_preserves calls _ _) E3) as C3.
  2:{ exists []. rewrite app_nil_r. simpl. split; [congruence|auto]. }
  destruct (run_determine_email o state wc) as [[[email save]|e] wd] eqn:E4;
    pose proof (preserves_eq calls _ _ _ _ (run_determine_email_calls o state) E4) as C4.
  2:{ exists []. rewrite app_nil_r. simpl. split; [congruence|auto]. }
  destruct (run_keep_email o state email save wd) as [[state'|e] w2] eqn:E5;
    pose proof (preserves_eq calls _ _ _ _ (run_keep_email_calls o state email save) E5)
      as C5.
  2:{ exists []. rewrite app_nil_r. simpl. split; [congruence|auto]. }
  rewrite run_start_flow_calls.
  destruct (run_call_client_calls o email bag acls w2) as (l & Hl & Hcases).
  exists l. split; [rewrite Hl; congruence|].
  destruct Hcases as [-> | [-> | [m ->]]]; [auto | auto |].
  right. right. exists email, acls, m. reflexivity.
Qed.

(** X11. The keywords that reach [start_deriva_flow] never repeat a name:
    they are the ten written out at lines 106-111, in that order, followed
    by bag keywords of other names. *)
Theorem splat_no_repeated_keyword `{Externals} (o : run_options) (acls bag : pyval)
    (w : world) (kw : kwargs) (w' : world) :
  splat (flow_kwargs o acls) bag w = (Ok kw, w') →
  NoDup kw.*1 ∧ ∃ rest, kw = (flow_kwargs o acls ++ rest)%list.
Proof.
  unfold splat. destruct bag as [| | | | |m]; try discriminate.
  destruct (forallb _ _) eqn:Hall; [|discriminate].
  intros [= <- _]. split; [|exists (map_to_list m); reflexivity].
  change (NoDup ((flow_kwargs o acls ++ map_to_list m)%list.*1)).
  rewrite fmap_app. apply NoDup_app. split; [|split].
  - simpl. match goal with |- ?P => apply (bool_decide_unpack P) end.
    vm_compute. exact I.
  - intros k Hk Hm.
    apply list_elem_of_fmap in Hk as ([k1 v1] & -> & Hin1).
    apply list_elem_of_fmap in Hm as ([k2 v2] & Hk2 & Hin2).
    simpl in Hk2. subst k2.
    apply elem_of_map_to_list in Hin2.
    rewrite forallb_forall in Hall.
    apply list_elem_of_In in Hin1. specialize (Hall _ Hin1).
    apply bool_decide_eq_true in Hall. simpl in Hall. congruence.
  - apply NoDup_fst_map_to_list.
Qed.

Lemma splat_no_repeated_keyword_witness :
  let H := Sample.externals Sample.answers in
  let o := Sample.options None false None in
  let w := Sample.session ∅ [] in
  let kw := (flow_kwargs o PNone ++ [("bag_name", PStr "b")])%list in
  NoDup kw.*1 ∧ ∃ rest, kw = (flow_kwargs o PNone ++ rest)%list.
Proof.
  intros H o w kw.
  apply (splat_no_repeated_keyword (H := H) o PNone
           (PDict {[ "bag_name" := PStr "b" ]}) w kw w).
  vm_compute. reflexivity.
Defined.

(** *** [run]: a submission the client accepts *)

Lemma run_record_flow_terminal `{Externals} o d R p f fi w :
  sys_stdout w = Terminal →
  R !! "fair_re_dest_path" = Some (PStr p) →
  R !! "flow_id" = Some f → R !! "flow_instance_id" = Some fi →
  run_record_flow o (PDict d) (PDict R) w
    = (Ok (), recorded o (flow_record o d p f fi) p w).
Proof.
  intros Hs Hdest Hf Hfi. unfold run_record_flow.
  cbv beta iota delta [bind ret raise py_getitem py_setitem os_path].
  rewrite Hdest, Hf, Hfi.
  unfold dump_json, dump_steps, seq_steps, open_w, json_dump.
  cbv beta iota delta [bind ret].
  unfold when, print, write_stdout, recorded, announcement, flow_record,
    http_link, globus_web_link.
  change (py_str (PStr p)) with p.
  destruct w as [fs ow si so ty sh cs]. simpl in Hs. subst so.
  destruct (verbose o); world_simpl; rewrite insert_insert_eq, <- ?app_assoc;
    reflexivity.
Qed.

Lemma recorded_disk `{Externals} o d' p w : disk (recorded o d' p w) = saved o d' w.
Proof. reflexivity. Qed.

Lemma run_accepted `{Externals} o w0 d email save bag acls w R w1 s msg p f fi :
  run_prepared o w0 d email save bag acls w →
  sys_stdout w = Terminal →
  dry_run o = false →
  run_call_client o email bag acls w = (Ok (PDict R), w1) →
  R !! "success" = Some s → truthy s = true →
  R !! "message" = Some msg →
  R !! "fair_re_dest_path" = Some (PStr p) →
  R !! "flow_id" = Some f → R !! "flow_instance_id" = Some fi →
  run o w0 = (Ok (), recorded o (flow_record o (kept d email save) p f fi) p
                       (add_shown (Printed (py_str msg)) w1))
  ∧ sys_stdout w1 = Terminal ∧ disk w1 = disk w0.
Proof.
  intros Hprep Hs Hdry Hc Hsucc Htrue Hmsg Hdest Hf Hfi.
  pose proof (preserves_eq sys_stdout _ _ _ _ (run_call_client_stdout _ _ _ _) Hc) as Hs1.
  rewrite Hs in Hs1.
  pose proof (preserves_eq disk _ _ _ _ (run_call_client_disk _ _ _ _) Hc) as Hd1.
  pose proof (run_prepared_disk _ _ _ _ _ _ _ _ Hprep) as Hd.
  split; [|split; [exact Hs1 | congruence]].
  rewrite (run_prepared_run _ _ _ _ _ _ _ _ Hprep).
  unfold run_start_flow, try_except_else. rewrite Hc.
  cbv beta iota delta [bind ret raise py_getitem].
  rewrite Hsucc, Htrue, Hmsg. cbv beta iota delta [negb].
  rewrite (print_Terminal _ _ Hs1), Hdry. cbv beta iota delta [negb].
  apply run_record_flow_terminal; [exact Hs1 | assumption..].
Qed.

(** X12. When the client accepts the submission and this is no dry
    run, [run] returns after printing the client's message, saving the
    record, and announcing the bag: the record saved is the one kept in
    memory with the five fields of lines 127-131 set, and the only change
    to the disk since the command started is that save. *)
Theorem run_success_records_flow `{Externals} (o : run_options) (w0 : world)
    (d : gmap string pyval) (email : pyval) (save : bool) (bag acls : pyval)
    (w : world) (R : gmap string pyval) (w1 : world) (s msg : pyval) (p : string)
    (f fi : pyval) :
  run_prepared o w0 d email save bag acls w →
  sys_stdout w = Terminal →
  dry_run o = false →
  run_call_client o email bag acls w = (Ok (PDict R), w1) →
  R !! "success" = Some s → truthy s = true →
  R !! "message" = Some msg →
  R !! "fair_re_dest_path" = Some (PStr p) →
  R !! "flow_id" = Some f → R !! "flow_instance_id" = Some fi →
  let d' := flow_record o (kept d email save) p f fi in
  run o w0 = (Ok (), recorded o d' p (add_shown (Printed (py_str msg)) w1))
  ∧ disk (run o w0).2 = saved o d' w0.
Proof.
  intros Hprep Hs Hdry Hc Hsucc Htrue Hmsg Hdest Hf Hfi d'.
  destruct (run_accepted o w0 d email save bag acls w R w1 s msg p f fi)
    as (Hrun & _ & Hd); try assumption.
  split; [exact Hrun|].
  rewrite Hrun. simpl. rewrite recorded_disk. apply saved_disk.
  change (disk (add_shown (Printed (py_str msg)) w1)) with (disk w1). exact Hd.
Qed.

Lemma run_success_records_flow_witness :
  let H := Sample.externals Sample.answers in
  let o := Sample.options None false None in
  let w0 := Sample.session (Sample.with_state Sample.earlier) [] in
  let d' := flow_record o Sample.earlier "/public/bag.zip" (PStr "F9") (PStr "I9") in
  (run o w0).1 = Ok () ∧ disk (run o w0).2 = saved o d' w0.
Proof.
  intros H o w0 d'.
  pose (w := add_shown (Printed "Using saved email 'a@x'") w0).
  assert (Hprep : run_prepared o w0 Sample.earlier (PStr "a@x") false (PDict ∅) PNone w).
  { exists w0, w0, w0, w. repeat split; reflexivity. }
  destruct (run_success_records_flow (H := H) o w0 Sample.earlier (PStr "a@x") false
              (PDict ∅) PNone w Sample.started
              (run_call_client o (PStr "a@x") (PDict ∅) PNone w).2
              (PBool true) (PStr "Flow started") "/public/bag.zip" (PStr "F9") (PStr "I9")
              Hprep eq_refl eq_refl)
    as [Hrun Hdisk];
    [vm_compute; reflexivity | reflexivity | reflexivity | reflexivity | reflexivity
    | reflexivity | reflexivity |].
  split; [rewrite Hrun; reflexivity | exact Hdisk].
Defined.

(** X13. On a dry run that the client accepts, [run] prints the client's
    message and returns: lines 121-139 are skipped, so the report needs
    none of the fields they read. *)
Theorem run_dry_run_success `{Externals} (o : run_options) (w0 : world)
    (d : gmap string pyval) (email : pyval) (save : bool) (bag acls : pyval)
    (w : world) (R : gmap string pyval) (w1 : world) (s msg : pyval) :
  run_prepared o w0 d email save bag acls w →
  sys_stdout w = Terminal →
  dry_run o = true →
  run_call_client o email bag acls w = (Ok (PDict R), w1) →
  R !! "success" = Some s → truthy s = true →
  R !! "message" = Some msg →
  run o w0 = (Ok (), add_shown (Printed (py_str msg)) w1).
Proof.
  intros Hprep Hs Hdry Hc Hsucc Htrue Hmsg.
  pose proof (preserves_eq sys_stdout _ _ _ _ (run_call_client_stdout _ _ _ _) Hc) as Hs1.
  rewrite Hs in Hs1.
  rewrite (run_prepared_run _ _ _ _ _ _ _ _ Hprep).
  unfold run_start_flow, try_except_else. rewrite Hc.
  cbv beta iota delta [bind ret raise py_getitem].
  rewrite Hsucc, Htrue, Hmsg. cbv beta iota delta [negb].
  rewrite (print_Terminal _ _ Hs1), Hdry. reflexivity.
Qed.

Lemma run_dry_run_success_witness :
  let H := Sample.externals
             (λ c, if Sample.method_is c "start_deriva_flow"
                   then inr (PDict {[ "success" := PBool true;
                                      "message" := PStr "Dry run validated" ]})
                   else inr PNone) in
  let o := Sample.options None true None in
  let w0 := Sample.session (Sample.with_state Sample.earlier) [] in
  let w := add_shown (Printed "Using saved email 'a@x'") w0 in
  run o w0 =
    (Ok (), add_shown (Printed "Dry run validated")
              (run_call_client o (PStr "a@x") (PDict ∅) PNone w).2).
Proof.
  intros H o w0 w.
  assert (Hprep : run_prepared o w0 Sample.earlier (PStr "a@x") false (PDict ∅) PNone w).
  { exists w0, w0, w0, w. repeat split; reflexivity. }
  apply (run_dry_run_success (H := H) o w0 Sample.earlier (PStr "a@x") false
           (PDict ∅) PNone w
           {[ "success" := PBool true; "message" := PStr "Dry run validated" ]}
           _ (PBool true) (PStr "Dry run validated") Hprep eq_refl eq_refl);
    [vm_compute; reflexivity | reflexivity | reflexivity | reflexivity].
Defined.

Lemma py_getitem_not_dict v k w :
  is_dict v = false →
  py_getitem v k w = (Raised (TypeError "object is not subscriptable by a string"), w).
Proof. destruct v; [reflexivity..|discriminate]. Qed.

(** X14. The report of [start_deriva_flow] is read in the [else] suite,
    outside the handler of line 112: a report that is no dictionary, or
    that lacks the field [run] reads next, makes [run] raise [TypeError]
    or [KeyError] instead of printing an error. The state file is not
    touched, even when the field missing is one of the Flow identifiers,
    read after the record in memory has been updated. *)
Theorem run_malformed_report `{Externals} (o : run_options) (w0 : world)
    (d : gmap string pyval) (email : pyval) (save : bool) (bag acls : pyval)
    (w : world) (res : pyval) (w1 : world) :
  run_prepared o w0 d email save bag acls w →
  sys_stdout w = Terminal →
  run_call_client o email bag acls w = (Ok res, w1) →
  disk w1 = disk w0
  ∧ (is_dict res = false →
       run o w0 = (Raised (TypeError "object is not subscriptable by a string"), w1))
  ∧ (∀ R, res = PDict R →
       (R !! "success" = None → run o w0 = (Raised (KeyError "success"), w1))
       ∧ (∀ s, R !! "success" = Some s → truthy s = false → R !! "error" = None →
            run o w0 = (Raised (KeyError "error"), w1))
       ∧ (∀ s, R !! "success" = Some s → truthy s = true → R !! "message" = None →
            run o w0 = (Raised (KeyError "message"), w1))
       ∧ (∀ s msg, R !! "success" = Some s → truthy s = true →
            R !! "message" = Some msg → dry_run o = false →
            let w2 := add_shown (Printed (py_str msg)) w1 in
            (R !! "fair_re_dest_path" = None →
               run o w0 = (Raised (KeyError "fair_re_dest_path"), w2))
            ∧ (∀ p, R !! "fair_re_dest_path" = Some (PStr p) →
                 R !! "flow_id" = None →
                 run o w0 = (Raised (KeyError "flow_id"), w2))
            ∧ (∀ p f, R !! "fair_re_dest_path" = Some (PStr p) →
                 R !! "flow_id" = Some f → R !! "flow_instance_id" = None →
                 run o w0 = (Raised (KeyError "flow_instance_id"), w2)))).
Proof.
  intros Hprep Hs Hc.
  pose proof (preserves_eq sys_stdout _ _ _ _ (run_call_client_stdout _ _ _ _) Hc) as Hs1.
  rewrite Hs in Hs1.
  pose proof (preserves_eq disk _ _ _ _ (run_call_client_disk _ _ _ _) Hc) as Hd1.
  pose proof (run_prepared_disk _ _ _ _ _ _ _ _ Hprep) as Hd.
  rewrite (run_prepared_run _ _ _ _ _ _ _ _ Hprep).
  unfold run_start_flow, try_except_else. rewrite Hc.
  split; [congruence|]. split.
  { intros Hres. apply bind_raised, py_getitem_not_dict, Hres. }
  intros R ->. cbv beta iota delta [bind ret raise py_getitem].
  split; [intros ->; reflexivity|].
  split; [intros s -> -> ->; reflexivity|].
  split; [intros s -> -> ->; reflexivity|].
  intros s msg Hsucc Htrue Hmsg Hdry. rewrite Hsucc, Htrue, Hmsg.
  cbv beta iota delta [negb]. rewrite (print_Terminal _ _ Hs1), Hdry.
  cbv beta iota delta [negb]. unfold run_record_flow.
  cbv beta iota delta [bind ret raise py_getitem py_setitem os_path].
  split; [intros ->; reflexivity|].
  split; [intros p -> ->; reflexivity|].
  intros p f -> -> ->. reflexivity.
Qed.

Lemma run_malformed_report_witness :
  let H := Sample.externals
             (λ c, if Sample.method_is c "start_deriva_flow"
                   then inr (PDict {[ "success" := PBool false ]})
                   else inr PNone) in
  let o := Sample.options None false None in
  let w0 := Sample.session (Sample.with_state Sample.earlier) [] in
  let w := add_shown (Printed "Using saved email 'a@x'") w0 in
  run o w0 =
    (Raised (KeyError "error"), (run_call_client o (PStr "a@x") (PDict ∅) PNone w).2).
Proof.
  intros H o w0 w.
  assert (Hprep : run_prepared o w0 Sample.earlier (PStr "a@x") false (PDict ∅) PNone w).
  { exists w0, w0, w0, w. repeat split; reflexivity. }
  destruct (run_malformed_report (H := H) o w0 Sample.earlier (PStr "a@x") false
              (PDict ∅) PNone w (PDict {[ "success" := PBool false ]})
              (run_call_client o (PStr "a@x") (PDict ∅) PNone w).2 Hprep eq_refl)
    as (_ & _ & Hdict); [vm_compute; reflexivity|].
  destruct (Hdict _ eq_refl) as (_ & Herror & _).
  apply (Herror (PBool false)); reflexivity.
Defined.

Lemma append_empty_r (s : string) : s ++ EmptyString = s.
Proof.
  induction s as [|c s IH]; [reflexivity|].
  change (String c (s ++ EmptyString) = String c s). f_equal. exact IH.
Qed.

Lemma http_link_append `{Externals} p : http_link p = py_str EP_URL ++ p.
Proof.
  unfold http_link. cbv beta iota delta [format]. fold (p ++ EmptyString).
  rewrite append_empty_r. reflexivity.
Qed.

Lemma globus_web_link_append `{Externals} p :
  globus_web_link p
    = "https://app.globus.org/file-manager?origin_id="
        ++ py_str EP_UUID ++ "&origin_path=" ++ dirname p.
Proof.
  unfold globus_web_link. cbv beta iota delta [format].
  fold (dirname p ++ EmptyString). rewrite append_empty_r. reflexivity.
Qed.

(** X15. The record saved for a started Flow holds, for [http_link], the
    endpoint's URL immediately followed by the path the client reported,
    and for [globus_web_link] the file-manager address of the directory of
    that path; every field that is none of those [run] writes is as it was
    in the record in memory. *)
Theorem run_record_flow_links `{Externals} (o : run_options) (d R : gmap string pyval)
    (p : string) (f fi : pyval) (w : world) :
  R !! "fair_re_dest_path" = Some (PStr p) →
  R !! "flow_id" = Some f → R !! "flow_instance_id" = Some fi →
  ∃ d' : gmap string pyval,
    files (run_record_flow o (PDict d) (PDict R) w).2
      !! state_file_path (client_state_file o) = Some (JsonText (PDict d'))
    ∧ d' !! "http_link" = Some (PStr (py_str EP_URL ++ p))
    ∧ d' !! "globus_web_link"
        = Some (PStr ("https://app.globus.org/file-manager?origin_id="
                        ++ py_str EP_UUID ++ "&origin_path=" ++ dirname p))
    ∧ ∀ k, k ∉ written_fields → d' !! k = d !! k.
Proof.
  intros Hdest Hf Hfi. exists (flow_record o d p f fi).
  split; [|split; [|split]].
  - apply (saved_files o _ w). apply run_record_flow_saves; assumption.
  - unfold flow_record. rewrite lookup_insert_ne by discriminate.
    rewrite lookup_insert_eq. fold (http_link p). rewrite http_link_append.
    reflexivity.
  - unfold flow_record. rewrite lookup_insert_eq. fold (globus_web_link p).
    rewrite globus_web_link_append. reflexivity.
  - unfold written_fields, flow_record. intros k Hk.
    rewrite !lookup_insert_ne; [reflexivity|..]; intros <-; apply Hk;
      rewrite !elem_of_union, !elem_of_singleton; tauto.
Qed.

Lemma run_record_flow_links_witness :
  let H := Sample.externals Sample.answers in
  let o := Sample.options None false None in
  let w := Sample.session (Sample.with_state Sample.earlier) [] in
  ∃ d' : gmap string pyval,
    files (run_record_flow o (PDict Sample.earlier) (PDict Sample.started) w).2
      !! state_file_path (client_state_file o) = Some (JsonText (PDict d'))
    ∧ d' !! "http_link" = Some (PStr (py_str EP_URL ++ "/public/bag.zip"))
    ∧ d' !! "globus_web_link"
        = Some (PStr ("https://app.globus.org/file-manager?origin_id="
                        ++ py_str EP_UUID ++ "&origin_path=" ++ dirname "/public/bag.zip"))
    ∧ ∀ k, k ∉ written_fields → d' !! k = Sample.earlier !! k.
Proof.
  intros H o w.
  apply (run_record_flow_links (H := H) o Sample.earlier Sample.started
           "/public/bag.zip" (PStr "F9") (PStr "I9") w); reflexivity.
Defined.

(** X16. [run] writes to no file but its state file: whatever happens,
    it opens for writing either nothing or the state file, once, and every
    other path holds afterwards what it held before. *)
Theorem run_writes_only_state_file `{Externals} (o : run_options) (w : world) :
  (opened_w (run o w).2 = opened_w w
   ∨ opened_w (run o w).2
       = (opened_w w ++ [state_file_path (client_state_file o)])%list)
  ∧ ∀ p, p ≠ state_file_path (client_state_file o) →
      files (run o w).2 !! p = files w !! p.
Proof.
  destruct (run_cases o w)
    as [Hsame | (_ & d & email & save & bag & acls & w2 & R & p' & f & fi
                 & _ & _ & _ & _ & _ & Hdisk)].
  - unfold disk in Hsame. injection Hsame as Hfiles Hopened.
    split; [left; exact Hopened|]. intros p _. rewrite Hfiles. reflexivity.
  - unfold disk, saved in Hdisk. injection Hdisk as Hfiles Hopened.
    split; [right; exact Hopened|]. intros p Hp. rewrite Hfiles.
    apply lookup_insert_ne. congruence.
Qed.

Lemma run_writes_only_state_file_witness :
  let H := Sample.externals Sample.answers in
  let o := Sample.options None false None in
  let w := Sample.session
             (<["notes.txt" := Unparsable]> (Sample.with_state Sample.earlier)) [] in
  files (run o w).2 !! "notes.txt" = files w !! "notes.txt".
Proof.
  intros H o w.
  destruct (run_writes_only_state_file (H := H) o w) as [_ Hother].
  apply Hother. discriminate.
Defined.

(** X17. What [run] saves, [status] finds: after a submission the client
    accepted, a [status] given no identifier resolves, from the state file
    [run] wrote, to the two identifiers the client reported and to the
    service instance of that run, provided both identifiers are truthy. *)
Theorem run_then_status `{Externals} (o : run_options) (w0 : world)
    (d : gmap string pyval) (email : pyval) (save : bool) (bag acls : pyval)
    (w : world) (R : gmap string pyval) (w1 : world) (s msg : pyval) (p : string)
    (f fi : pyval) :
  run_prepared o w0 d email save bag acls w →
  sys_stdout w = Terminal →
  dry_run o = false →
  run_call_client o email bag acls w = (Ok (PDict R), w1) →
  R !! "success" = Some s → truthy s = true →
  R !! "message" = Some msg →
  R !! "fair_re_dest_path" = Some (PStr p) →
  R !! "flow_id" = Some f → R !! "flow_instance_id" = Some fi →
  truthy f && truthy fi = true →
  let w' := (run o w0).2 in
  status_resolve PNone PNone (client_state_file o) w'
    = (Ok (Some (f, fi, Some (of_option (service_instance o)))), w').
Proof.
  intros Hprep Hs Hdry Hc Hsucc Htrue Hmsg Hdest Hf Hfi Htruthy w'.
  destruct (run_accepted o w0 d email save bag acls w R w1 s msg p f fi)
    as (Hrun & Hs1 & _); try assumption.
  assert (Hfile : files w' !! state_file_path (client_state_file o)
                  = Some (JsonText (PDict (flow_record o (kept d email save) p f fi)))).
  { unfold w'. rewrite Hrun. apply lookup_insert_eq. }
  assert (Hs' : sys_stdout w' = Terminal) by (unfold w'; rewrite Hrun; exact Hs1).
  pose proof (status_resolve_record PNone PNone (client_state_file o) w' _ Hs' eq_refl
                Hfile) as Hr.
  unfold fallback in Hr. simpl truthy in Hr. cbv iota in Hr.
  destruct (flow_record_ids o (kept d email save) p f fi) as [Hid Hiid].
  rewrite Hid, Hiid, flow_record_service_instance in Hr. simpl in Hr.
  rewrite Htruthy in Hr. exact Hr.
Qed.

Lemma run_then_status_witness :
  let H := Sample.externals Sample.answers in
  let o := Sample.options None false (Some "dev") in
  let w0 := Sample.session (Sample.with_state Sample.earlier) [] in
  let w' := (run o w0).2 in
  status_resolve PNone PNone None w'
    = (Ok (Some (PStr "F9", PStr "I9", Some (PStr "dev"))), w').
Proof.
  intros H o w0 w'.
  pose (w := add_shown (Printed "Using saved email 'a@x'") w0).
  assert (Hprep : run_prepared o w0 Sample.earlier (PStr "a@x") false (PDict ∅) PNone w).
  { exists w0, w0, w0, w. repeat split; reflexivity. }
  apply (run_then_status (H := H) o w0 Sample.earlier (PStr "a@x") false
           (PDict ∅) PNone w Sample.started
           (run_call_client o (PStr "a@x") (PDict ∅) PNone w).2
           (PBool true) (PStr "Flow started") "/public/bag.zip" (PStr "F9") (PStr "I9")
           Hprep eq_refl eq_refl);
    [vm_compute; reflexivity | reflexivity | reflexivity | reflexivity | reflexivity
    | reflexivity | reflexivity | reflexivity].
Defined.

(** *** [status]: the query *)

(** X18. Whatever making the client or [check_status] raises is caught by
    [status]: it prints the error, as [repr] gives it under [--raw] and as
    [str] gives it otherwise, and returns. When the constructor raises,
    [check_status] is not called. *)
Theorem status_client_error `{Externals} (fid iid si : pyval) (raw : bool) (w : world) :
  sys_stdout w = Terminal →
  (∀ e, remote (CfdeClient_init (status_client si)) = inl e →
     status_query fid iid (Some si) raw w =
       (Ok (), add_shown (Printed (status_error fid raw e))
                 (add_call (CfdeClient_init (status_client si)) w)))
  ∧ (∀ v e, remote (CfdeClient_init (status_client si)) = inr v →
       remote (check_status_call si fid iid) = inl e →
       status_query fid iid (Some si) raw w =
         (Ok (), add_shown (Printed (status_error fid raw e))
                   (add_call (check_status_call si fid iid)
                      (add_call (CfdeClient_init (status_client si)) w)))).
Proof.
  intros Hs. split.
  - intros e Hinit. unfold status_query, try_except_else, CfdeClient.
    cbv beta iota delta [bind ret raise local call].
    fold (status_client si). rewrite Hinit. apply print_Terminal. exact Hs.
  - intros v e Hinit Hcheck. unfold status_query, try_except_else, CfdeClient.
    cbv beta iota delta [bind ret raise local call].
    fold (status_client si). rewrite Hinit. cbv beta iota.
    fold (check_status_call si fid iid). rewrite Hcheck.
    apply print_Terminal. exact Hs.
Qed.

Lemma status_client_error_witness :
  let H := Sample.externals Sample.fails in
  let w := Sample.session ∅ [] in
  status_query (PStr "F2") (PStr "I2") (Some (PStr "dev")) false w =
    (Ok (), add_shown (Printed (status_error (PStr "F2") false Sample.unreachable))
              (add_call (check_status_call (PStr "dev") (PStr "F2") (PStr "I2"))
                 (add_call (CfdeClient_init (status_client (PStr "dev"))) w))).
Proof.
  intros H w.
  destruct (status_client_error (H := H) (PStr "F2") (PStr "I2") (PStr "dev") false w
              eq_refl) as [_ Hcheck].
  apply (Hcheck PNone Sample.unreachable); reflexivity.
Defined.

(** X19. When the client answers, [status] shows the answer: under
    [--raw] the whole report as [json.dumps] renders it, otherwise its
    [clean_status]. A report without [clean_status] makes [status] raise
    [KeyError]: line 177 is outside the handler of line 166. *)
Theorem status_shows_answer `{Externals} (fid iid si : pyval) (raw : bool) (w : world)
    (v res : pyval) :
  sys_stdout w = Terminal →
  remote (CfdeClient_init (status_client si)) = inr v →
  remote (check_status_call si fid iid) = inr res →
  let w2 := add_call (check_status_call si fid iid)
              (add_call (CfdeClient_init (status_client si)) w) in
  (raw = true →
     status_query fid iid (Some si) raw w
       = (Ok (), add_shown (Printed (json_dumps res)) w2))
  ∧ (raw = false → ∀ R c, res = PDict R → R !! "clean_status" = Some c →
       status_query fid iid (Some si) raw w
         = (Ok (), add_shown (Printed (py_str c)) w2))
  ∧ (raw = false → ∀ R, res = PDict R → R !! "clean_status" = None →
       status_query fid iid (Some si) raw w = (Raised (KeyError "clean_status"), w2)).
Proof.
  intros Hs Hinit Hcheck w2.
  rewrite (status_query_answer fid iid si raw w v res Hs Hinit Hcheck). fold w2.
  assert (Hs2 : sys_stdout w2 = Terminal) by exact Hs.
  split; [|split].
  - intros ->. apply print_Terminal, Hs2.
  - intros -> R c -> Hc. cbv beta iota delta [bind ret raise py_getitem].
    rewrite Hc. apply print_Terminal, Hs2.
  - intros -> R -> Hc. cbv beta iota delta [bind ret raise py_getitem].
    rewrite Hc. reflexivity.
Qed.

Lemma status_shows_answer_witness :
  let H := Sample.externals Sample.answers in
  let w := Sample.session ∅ [] in
  status_query (PStr "F2") (PStr "I2") (Some (PStr "dev")) false w =
    (Ok (), add_shown (Printed "Flow is ACTIVE")
              (add_call (check_status_call (PStr "dev") (PStr "F2") (PStr "I2"))
                 (add_call (CfdeClient_init (status_client (PStr "dev"))) w))).
Proof.
  intros H w.
  destruct (status_shows_answer (H := H) (PStr "F2") (PStr "I2") (PStr "dev") false w
              PNone (PDict Sample.active) eq_refl eq_refl eq_refl)
    as (_ & Hclean & _).
  apply (Hclean eq_refl Sample.active (PStr "Flow is ACTIVE")); reflexivity.
Defined.

(** *** [status]: the state file *)

(** X20. The two commands disagree on a state file that does not parse:
    [status], whose handler at line 160 takes [ValueError] and with it the
    JSON error, says that no Flow was started and returns, while [run] on
    the same file raises the JSON error. *)
Theorem status_malformed_state_swallowed `{Externals}
    (flow_id flow_instance_id : option string) (raw : bool) (csf : option string)
    (w : world) :
  sys_stdout w = Terminal →
  truthy (of_option flow_id) && truthy (of_option flow_instance_id) = false →
  files w !! state_file_path csf = Some Unparsable →
  status flow_id flow_instance_id raw csf w
    = (Ok (), add_shown (Printed no_flow_message) w)
  ∧ ∀ o, client_state_file o = csf → run o w = (Raised JSONDecodeError, w).
Proof.
  intros Hs Hx Hfile. split.
  - apply status_no_flow, status_resolve_malformed; assumption.
  - intros o <-. unfold run. apply bind_raised, run_load_state_malformed, Hfile.
Qed.

Lemma status_malformed_state_swallowed_witness :
  let H := Sample.externals Sample.answers in
  let w := Sample.session {[ Sample.home := Unparsable ]} [] in
  status None None false None w = (Ok (), add_shown (Printed no_flow_message) w)
  ∧ ∀ o, client_state_file o = None → run o w = (Raised JSONDecodeError, w).
Proof.
  intros H w.
  apply (status_malformed_state_swallowed (H := H) None None false None w);
    reflexivity.
Defined.

(** X21. A state file that parses to something other than an object
    makes [status] raise [AttributeError] as soon as it reads a field of
    it: the handler of line 160 does not take that error. *)
Theorem status_state_not_object `{Externals} (flow_id flow_instance_id : option string)
    (raw : bool) (csf : option string) (w : world) (v : pyval) :
  truthy (of_option flow_id) && truthy (of_option flow_instance_id) = false →
  files w !! state_file_path csf = Some (JsonText v) →
  is_dict v = false →
  status flow_id flow_instance_id raw csf w = (Raised (AttributeError no_get), w).
Proof.
  intros Hx Hfile Hv. unfold status. apply bind_raised.
  unfold status_resolve. rewrite <- negb_andb, Hx. cbv beta iota delta [negb].
  unfold try_except.
  assert (Hbody :
    ∀ fid iid,
      (client_state ← load_json (state_file_path csf);
       flow_id ← (if truthy fid then ret fid else py_get client_state "flow_id");
       flow_instance_id ← (if truthy iid then ret iid
                           else py_get client_state "flow_instance_id");
       service_instance ← py_get client_state "service_instance";
       if negb (truthy flow_id) || negb (truthy flow_instance_id) then
         raise (ValueError "flow_id or flow_instance_id not found")
       else ret (Some (flow_id, flow_instance_id, Some service_instance))) w
      = (Raised (AttributeError no_get), w)).
  { intros fid iid.
    rewrite (bind_ok _ _ w v w) by (unfold load_json; rewrite Hfile; reflexivity).
    destruct (truthy fid).
    - rewrite (bind_ok _ _ w fid w) by reflexivity.
      destruct (truthy iid).
      + rewrite (bind_ok _ _ w iid w) by reflexivity.
        apply bind_raised, py_get_not_dict, Hv.
      + apply bind_raised, py_get_not_dict, Hv.
    - apply bind_raised, py_get_not_dict, Hv. }
  rewrite Hbody. reflexivity.
Qed.

Lemma status_state_not_object_witness :
  let H := Sample.externals Sample.answers in
  let w := Sample.session {[ Sample.home := JsonText (PList []) ]} [] in
  status (Some "F1") None false None w = (Raised (AttributeError no_get), w).
Proof.
  intros H w.
  apply (status_state_not_object (H := H) (Some "F1") None false None w (PList []));
    reflexivity.
Defined.

(** *** [status]: the calls it makes on the client *)

Lemma status_resolve_calls `{Externals} fid iid csf :
  preserves calls (status_resolve fid iid csf).
Proof. unfold status_resolve. frame. Qed.

Lemma status_show_calls `{Externals} (raw : bool) res :
  preserves calls
    (if raw then print (json_dumps res)
     else clean_status ← py_getitem res "clean_status"; print (py_str clean_status)).
Proof. frame. Qed.

Lemma status_query_calls `{Externals} f i si raw w :
  ∃ l, calls (status_query f i si raw w).2 = (calls w ++ l)%list
       ∧ (l = []
          ∨ ∃ s, l = [CfdeClient_init (status_client s)]
                 ∨ l = [CfdeClient_init (status_client s); check_status_call s f i]).
Proof.
  unfold status_query, try_except_else, CfdeClient.
  cbv beta iota delta [bind ret raise local call].
  destruct si as [s|].
  2:{ exists []. rewrite app_nil_r. split; [apply print_calls | auto]. }
  fold (status_client s).
  destruct (remote (CfdeClient_init (status_client s))) as [e|v]; cbv beta iota.
  { exists [CfdeClient_init (status_client s)].
    split; [apply print_calls | eauto]. }
  fold (check_status_call s f i).
  exists [CfdeClient_init (status_client s); check_status_call s f i].
  split; [|eauto].
  destruct (remote (check_status_call s f i)) as [e|res]; cbv beta iota.
  - etransitivity; [apply print_calls|]. simpl. rewrite <- app_assoc. reflexivity.
  - etransitivity; [apply (status_show_calls raw res)|]. simpl.
    rewrite <- app_assoc. reflexivity.
Qed.

(** X22. Whatever happens, [status] calls the client at most twice and in
    this order: the constructor with a service instance only, then
    [check_status] on the client made, always with [raw=True], whether or
    not [--raw] was given. *)
Theorem status_calls `{Externals} (flow_id flow_instance_id : option string)
    (raw : bool) (csf : option string) (w : world) :
  ∃ l, calls (status flow_id flow_instance_id raw csf w).2 = (calls w ++ l)%list
       ∧ (l = []
          ∨ ∃ s, l = [CfdeClient_init (status_client s)]
                 ∨ ∃ f i, l = [CfdeClient_init (status_client s);
                               CfdeClient_method (status_client s) "check_status" [f; i]
                                                 [("raw", PBool true)]]).
Proof.
  unfold status, bind.
  pose proof (status_resolve_calls (of_option flow_id) (of_option flow_instance_id)
                csf w) as Hr.
  destruct (status_resolve _ _ csf w) as [[[[[f i] si]|]|e] w1]; simpl in Hr.
  - destruct (status_query_calls f i si raw w1) as (l & Hl & Hcases).
    exists l. split; [rewrite Hl, Hr; reflexivity|].
    destruct Hcases as [-> | [s [-> | ->]]]; [auto | eauto |].
    right. exists s. right. exists f, i. reflexivity.
  - exists []. rewrite app_nil_r. auto.
  - exists []. rewrite app_nil_r. auto.
Qed.

(** *** [login] *)

(** X23. [login] makes one client, with the two options given, between
    its two lines. Nothing is caught: when the constructor raises, the
    exception comes out of [login] and the second line is not printed. *)
Theorem login_outcomes `{Externals} (force_login no_browser : bool) (w : world) :
  sys_stdout w = Terminal →
  let made := add_call (CfdeClient_init (login_client force_login no_browser))
                (add_shown (Printed "Starting login check") w) in
  (∀ v, remote (CfdeClient_init (login_client force_login no_browser)) = inr v →
     login force_login no_browser w =
       (Ok (), add_shown
                 (Printed "You are authenticated and your tokens have been cached.")
                 made))
  ∧ (∀ e, remote (CfdeClient_init (login_client force_login no_browser)) = inl e →
       login force_login no_browser w = (Raised e, made)).
Proof.
  intros Hs made. unfold login.
  rewrite (bind_ok _ _ _ _ _ (print_Terminal _ _ Hs)).
  unfold CfdeClient. cbv beta iota delta [bind ret call].
  fold (login_client force_login no_browser).
  split.
  - intros v ->. apply print_Terminal. exact Hs.
  - intros e ->. reflexivity.
Qed.

Lemma login_outcomes_witness :
  let H := Sample.externals Sample.no_tokens in
  let w := Sample.session ∅ [] in
  login false true w =
    (Raised Sample.invalid_grant,
     add_call (CfdeClient_init (login_client false true))
       (add_shown (Printed "Starting login check") w)).
Proof.
  intros H w.
  destruct (login_outcomes (H := H) false true w eq_refl) as [_ Hraises].
  apply Hraises. reflexivity.
Defined.

(** *** [logout] *)

(** X24. When the client is made and its [logout] raises, the handler of
    line 214 treats the exception as it treats one from the constructor: an
    invalid-grant error is absorbed and [logout] ends on its two lines, any
    other exception comes out of the command, the streams restored. *)
Theorem logout_revoke_raises `{Externals} (w : world) (v : pyval) (e : exc) :
  sys_stdout w = Terminal →
  remote (CfdeClient_init probe_client) = inr v →
  remote logout_call = inl e →
  logout w =
    if is_invalid_grant e
    then (Ok (), after_logout w ["Logging out and revoking tokens"; "You are logged out."]
                   [CfdeClient_init probe_client; logout_call])
    else (Raised e, after_logout w ["Logging out and revoking tokens"]
                      [CfdeClient_init probe_client; logout_call]).
Proof.
  destruct w as [fs ow si so ty sh cs]. simpl. intros -> Hinit Hout.
  unfold logout, bind, try_finally, try_except, with_devnull, try_finally,
    CfdeClient, bind, call, print, write_stdout; simpl.
  fold probe_client. rewrite Hinit. simpl. fold logout_call. rewrite Hout. simpl.
  destruct (is_invalid_grant e); simpl; unfold after_logout; world_simpl;
    rewrite <- ?app_assoc; reflexivity.
Qed.

Lemma logout_revoke_raises_witness :
  let H := Sample.externals Sample.fails in
  let w := Sample.session ∅ [] in
  logout w =
    (Raised Sample.unreachable,
     after_logout w ["Logging out and revoking tokens"]
                  [CfdeClient_init probe_client; logout_call]).
Proof.
  intros H w.
  apply (logout_revoke_raises (H := H) w PNone Sample.unreachable); reflexivity.
Defined.



(** X26. Whatever happens, [logout] calls the client at most twice and in
    this order: the constructor with [no_browser=True], then [logout] on
    the client made. *)
Theorem logout_calls_cases `{Externals} (w : world) :
  ∃ l, calls (logout w).2 = (calls w ++ l)%list
       ∧ (l = [] ∨ l = [CfdeClient_init probe_client]
          ∨ l = [CfdeClient_init probe_client; logout_call]).
Proof.
  destruct w as [fs ow si so ty sh cs].
  unfold logout, bind, try_finally, try_except, with_devnull, try_finally,
    CfdeClient, bind, call, print, write_stdout; simpl.
  fold probe_client. fold logout_call.
  destruct so as [|[|]]; simpl.
  2:{ exists []. rewrite app_nil_r. auto. }
  all: destruct (remote (CfdeClient_init probe_client)) as [e|v]; simpl.
  all: try (exists [CfdeClient_init probe_client];
            split; [|auto]; destruct (is_invalid_grant e); reflexivity).
  all: exists [CfdeClient_init probe_client; logout_call];
    split; [|auto]; unfold logout_call;
    destruct (remote (CfdeClient_method _ _ _ _)) as [e|v']; simpl;
    try destruct (is_invalid_grant e); simpl; rewrite <- ?app_assoc; reflexivity.
Qed.

(** *** [run], from the command line to the saved record *)

Lemma run_call_client_answers `{Externals} o email m acls w c res :
  sys_stdout w = Terminal →
  remote (CfdeClient_init (run_client o)) = inr c →
  forallb (λ kv : string * pyval, bool_decide (m !! kv.1 = None))
          (flow_kwargs o acls) = true →
  remote (start_call o email ((flow_kwargs o acls ++ map_to_list m)%list)) = inr res →
  run_call_client o email (PDict m) acls w =
    (Ok res,
     add_call (start_call o email ((flow_kwargs o acls ++ map_to_list m)%list))
       (add_call (CfdeClient_init (run_client o))
          (said (verbose o) "Initializing Flow" w))).
Proof.
  intros Hs Hinit Hfresh Hstart. unfold run_call_client.
  rewrite (bind_ok _ _ _ _ _ (when_print _ _ _ Hs)).
  unfold CfdeClient, splat. fold (run_client o). rewrite Hfresh.
  cbv beta iota delta [bind call ret]. rewrite Hinit.
  fold (start_call o email ((flow_kwargs o acls ++ map_to_list m)%list)).
  rewrite Hstart. reflexivity.
Qed.

(** X27. [run] from end to end, for a user whose email is saved and who
    names no optional file: when the client is made and accepts the
    submission, [run] asks nothing, calls the client twice, prints the
    client's message, saves the record loaded with the five fields of the
    Flow set, announces the bag, and returns. *)
Theorem run_end_to_end `{Externals} (o : run_options) (w : world)
    (S : gmap string pyval) (v c : pyval) (R : gmap string pyval) (s msg : pyval)
    (p : string) (f fi : pyval) :
  sys_stdout w = Terminal →
  author_email o = None → bag_kwargs_file o = None → acl_file o = None →
  dry_run o = false →
  holds_state w (state_file_path (client_state_file o)) S →
  S !! "author_email" = Some v → v ≠ PNone →
  remote (CfdeClient_init (run_client o)) = inr c →
  remote (start_call o v (flow_kwargs o PNone)) = inr (PDict R) →
  R !! "success" = Some s → truthy s = true →
  R !! "message" = Some msg →
  R !! "fair_re_dest_path" = Some (PStr p) →
  R !! "flow_id" = Some f → R !! "flow_instance_id" = Some fi →
  run o w =
    (Ok (),
     recorded o (flow_record o S p f fi) p
       (add_shown (Printed (py_str msg))
          (add_call (start_call o v (flow_kwargs o PNone))
             (add_call (CfdeClient_init (run_client o))
                (said (verbose o) "Initializing Flow"
                   (add_shown (Printed (saved_email_message v))
                      (said (verbose o) "Determining author email"
                         (said (verbose o)
                            (load_message w (state_file_path (client_state_file o)))
                            w)))))))).
Proof.
  intros Hs He Hbagfile Haclfile Hdry HS Hv Hnone Hinit Hstart Hsucc Htrue Hmsg
    Hdest Hf Hfi.
  set (w1 := said (verbose o) (load_message w (state_file_path (client_state_file o))) w).
  set (w2 := add_shown (Printed (saved_email_message v))
               (said (verbose o) "Determining author email" w1)).
  assert (Hs1 : sys_stdout w1 = Terminal) by (unfold w1; rewrite said_stdout; exact Hs).
  assert (Hs2 : sys_stdout w2 = Terminal).
  { unfold w2. change (sys_stdout (add_shown ?e ?x)) with (sys_stdout x).
    rewrite said_stdout. exact Hs1. }
  assert (Hprep : run_prepared o w S v false (PDict ∅) PNone w2).
  { exists w1, w1, w1, w2.
    split; [exact (run_load_state_holds o w S Hs HS)|].
    split; [rewrite Hbagfile; reflexivity|].
    split; [rewrite Haclfile; reflexivity|].
    split; [apply run_determine_email_saved; assumption | reflexivity]. }
  assert (Hkw : (flow_kwargs o PNone ++ map_to_list (∅ : gmap string pyval))%list
                = flow_kwargs o PNone).
  { rewrite map_to_list_empty. apply app_nil_r. }
  pose proof (run_call_client_answers o v ∅ PNone w2 c (PDict R) Hs2 Hinit) as Hc.
  rewrite Hkw in Hc. specialize (Hc eq_refl Hstart).
  destruct (run_accepted o w S v false (PDict ∅) PNone w2 R _ s msg p f fi
              Hprep Hs2 Hdry Hc Hsucc Htrue Hmsg Hdest Hf Hfi) as (Hrun & _).
  exact Hrun.
Qed.

Lemma run_end_to_end_witness :
  let H := Sample.externals Sample.answers in
  let o := Sample.options None false (Some "dev") in
  let w := Sample.session (Sample.with_state Sample.earlier) [] in
  run o w =
    (Ok (),
     recorded o (flow_record o Sample.earlier "/public/bag.zip" (PStr "F9") (PStr "I9"))
       "/public/bag.zip"
       (add_shown (Printed "Flow started")
          (add_call (start_call o (PStr "a@x") (flow_kwargs o PNone))
             (add_call (CfdeClient_init (run_client o))
                (add_shown (Printed (saved_email_message (PStr "a@x"))) w))))).
Proof.
  intros H o w.
  apply (run_end_to_end (H := H) o w Sample.earlier (PStr "a@x") PNone Sample.started
           (PBool true) (PStr "Flow started") "/public/bag.zip" (PStr "F9") (PStr "I9"));
    try reflexivity.
  - left. reflexivity.
  - discriminate.
Defined.
